(** * The analysis pipeline of [app.py]: agents, retry with fallback, decision

    A shallow embedding of the orchestration core of the dashboard script:
    the two data helpers [get_stock_price] and [get_market_news], the class
    [Agent] with its method [work], the "Run Analysis" block that chains the
    three agents, and the banner selection at the end of that block.

    Python [str] values are modelled as [string]: a text is kept as the
    bytes of its UTF-8 encoding, one [ascii] for each byte.  A value that
    can be Python's [None] is an [option].
    What the script does to the outside world (market data provider, model
    client, [time.sleep], Streamlit widgets) is recorded, in order, in a log
    of events; the answers of the outside world are given by an [Env]. *)

From Stdlib Require Import String Ascii List Bool Arith NArith Lia.
Import ListNotations.
Local Open Scope list_scope.
Local Open Scope string_scope.

Set Implicit Arguments.

(** ** Python string operations used by the script *)

Module Py.

(** ["\n"] *)
Definition nl : string := String "010"%char EmptyString.

Definition is_ascii_lower (c : ascii) : bool :=
  (97 <=? nat_of_ascii c)%nat && (nat_of_ascii c <=? 122)%nat.


Definition upper_char (c : ascii) : ascii :=
  if is_ascii_lower c then ascii_of_nat (nat_of_ascii c - 32) else c.


(** A text is kept as the bytes of its UTF-8 encoding.  [utf8 cp] is the
    encoding of the code point [cp]. *)
Definition utf8 (cp : N) : string :=
  (if cp <? 128 then String (ascii_of_N cp) EmptyString
   else if cp <? 2048 then
     String (ascii_of_N (192 + cp / 64))
       (String (ascii_of_N (128 + cp mod 64)) EmptyString)
   else if cp <? 65536 then
     String (ascii_of_N (224 + cp / 4096))
       (String (ascii_of_N (128 + (cp / 64) mod 64))
          (String (ascii_of_N (128 + cp mod 64)) EmptyString))
   else
     String (ascii_of_N (240 + cp / 262144))
       (String (ascii_of_N (128 + (cp / 4096) mod 64))
          (String (ascii_of_N (128 + (cp / 64) mod 64))
             (String (ascii_of_N (128 + cp mod 64)) EmptyString))))%N.

Fixpoint utf8_all (cps : list N) : string :=
  match cps with
  | [] => EmptyString
  | cp :: cps' => utf8 cp ++ utf8_all cps'
  end.

Definition is_continuation (b : ascii) : bool :=
  ((128 <=? N_of_ascii b) && (N_of_ascii b <? 192))%N.

(** The code points above the ASCII range that [str.upper] changes, each
    with the code points it becomes (Unicode 14.0.0, as CPython 3.11 has
    it: the simple upper-case mappings and the special casing such as
    U+00DF to "SS" and U+017F to "S"). *)
Definition UPPER_TABLE : list (N * list N) :=
  ([(181, [924]); (223, [83; 83]); (224, [192]); (225, [193]); (226, [194]); (227, [195]);
  (228, [196]); (229, [197]); (230, [198]); (231, [199]); (232, [200]); (233, [201]);
  (234, [202]); (235, [203]); (236, [204]); (237, [205]); (238, [206]); (239, [207]);
  (240, [208]); (241, [209]); (242, [210]); (243, [211]); (244, [212]); (245, [213]);
  (246, [214]); (248, [216]); (249, [217]); (250, [218]); (251, [219]); (252, [220]);
  (253, [221]); (254, [222]); (255, [376]); (257, [256]); (259, [258]); (261, [260]);
  (263, [262]); (265, [264]); (267, [266]); (269, [268]); (271, [270]); (273, [272]);
  (275, [274]); (277, [276]); (279, [278]); (281, [280]); (283, [282]); (285, [284]);
  (287, [286]); (289, [288]); (291, [290]); (293, [292]); (295, [294]); (297, [296]);
  (299, [298]); (301, [300]); (303, [302]); (305, [73]); (307, [306]); (309, [308]);
  (311, [310]); (314, [313]); (316, [315]); (318, [317]); (320, [319]); (322, [321]);
  (324, [323]); (326, [325]); (328, [327]); (329, [700; 78]); (331, [330]); (333, [332]);
  (335, [334]); (337, [336]); (339, [338]); (341, [340]); (343, [342]); (345, [344]);
  (347, [346]); (349, [348]); (351, [350]); (353, [352]); (355, [354]); (357, [356]);
  (359, [358]); (361, [360]); (363, [362]); (365, [364]); (367, [366]); (369, [368]);
  (371, [370]); (373, [372]); (375, [374]); (378, [377]); (380, [379]); (382, [381]);
  (383, [83]); (384, [579]); (387, [386]); (389, [388]); (392, [391]); (396, [395]);
  (402, [401]); (405, [502]); (409, [408]); (410, [573]); (414, [544]); (417, [416]);
  (419, [418]); (421, [420]); (424, [423]); (429, [428]); (432, [431]); (436, [435]);
  (438, [437]); (441, [440]); (445, [444]); (447, [503]); (453, [452]); (454, [452]);
  (456, [455]); (457, [455]); (459, [458]); (460, [458]); (462, [461]); (464, [463]);
  (466, [465]); (468, [467]); (470, [469]); (472, [471]); (474, [473]); (476, [475]);
  (477, [398]); (479, [478]); (481, [480]); (483, [482]); (485, [484]); (487, [486]);
  (489, [488]); (491, [490]); (493, [492]); (495, [494]); (496, [74; 780]); (498, [497]);
  (499, [497]); (501, [500]); (505, [504]); (507, [506]); (509, [508]); (511, [510]);
  (513, [512]); (515, [514]); (517, [516]); (519, [518]); (521, [520]); (523, [522]);
  (525, [524]); (527, [526]); (529, [528]); (531, [530]); (533, [532]); (535, [534]);
  (537, [536]); (539, [538]); (541, [540]); (543, [542]); (547, [546]); (549, [548]);
  (551, [550]); (553, [552]); (555, [554]); (557, [556]); (559, [558]); (561, [560]);
  (563, [562]); (572, [571]); (575, [11390]); (576, [11391]); (578, [577]); (583, [582]);
  (585, [584]); (587, [586]); (589, [588]); (591, [590]); (592, [11375]); (593, [11373]);
  (594, [11376]); (595, [385]); (596, [390]); (598, [393]); (599, [394]); (601, [399]);
  (603, [400]); (604, [42923]); (608, [403]); (609, [42924]); (611, [404]); (613, [42893]);
  (614, [42922]); (616, [407]); (617, [406]); (618, [42926]); (619, [11362]); (620, [42925]);
  (623, [412]); (625, [11374]); (626, [413]); (629, [415]); (637, [11364]); (640, [422]);
  (642, [42949]); (643, [425]); (647, [42929]); (648, [430]); (649, [580]); (650, [433]);
  (651, [434]); (652, [581]); (658, [439]); (669, [42930]); (670, [42928]); (837, [921]);
  (881, [880]); (883, [882]); (887, [886]); (891, [1021]); (892, [1022]); (893, [1023]);
  (912, [921; 776; 769]); (940, [902]); (941, [904]); (942, [905]); (943, [906]);
  (944, [933; 776; 769]); (945, [913]); (946, [914]); (947, [915]); (948, [916]); (949, [917]);
  (950, [918]); (951, [919]); (952, [920]); (953, [921]); (954, [922]); (955, [923]);
  (956, [924]); (957, [925]); (958, [926]); (959, [927]); (960, [928]); (961, [929]);
  (962, [931]); (963, [931]); (964, [932]); (965, [933]); (966, [934]); (967, [935]);
  (968, [936]); (969, [937]); (970, [938]); (971, [939]); (972, [908]); (973, [910]);
  (974, [911]); (976, [914]); (977, [920]); (981, [934]); (982, [928]); (983, [975]);
  (985, [984]); (987, [986]); (989, [988]); (991, [990]); (993, [992]); (995, [994]);
  (997, [996]); (999, [998]); (1001, [1000]); (1003, [1002]); (1005, [1004]); (1007, [1006]);
  (1008, [922]); (1009, [929]); (1010, [1017]); (1011, [895]); (1013, [917]); (1016, [1015]);
  (1019, [1018]); (1072, [1040]); (1073, [1041]); (1074, [1042]); (1075, [1043]);
  (1076, [1044]); (1077, [1045]); (1078, [1046]); (1079, [1047]); (1080, [1048]);
  (1081, [1049]); (1082, [1050]); (1083, [1051]); (1084, [1052]); (1085, [1053]);
  (1086, [1054]); (1087, [1055]); (1088, [1056]); (1089, [1057]); (1090, [1058]);
  (1091, [1059]); (1092, [1060]); (1093, [1061]); (1094, [1062]); (1095, [1063]);
  (1096, [1064]); (1097, [1065]); (1098, [1066]); (1099, [1067]); (1100, [1068]);
  (1101, [1069]); (1102, [1070]); (1103, [1071]); (1104, [1024]); (1105, [1025]);
  (1106, [1026]); (1107, [1027]); (1108, [1028]); (1109, [1029]); (1110, [1030]);
  (1111, [1031]); (1112, [1032]); (1113, [1033]); (1114, [1034]); (1115, [1035]);
  (1116, [1036]); (1117, [1037]); (1118, [1038]); (1119, [1039]); (1121, [1120]);
  (1123, [1122]); (1125, [1124]); (1127, [1126]); (1129, [1128]); (1131, [1130]);
  (1133, [1132]); (1135, [1134]); (1137, [1136]); (1139, [1138]); (1141, [1140]);
  (1143, [1142]); (1145, [1144]); (1147, [1146]); (1149, [1148]); (1151, [1150]);
  (1153, [1152]); (1163, [1162]); (1165, [1164]); (1167, [1166]); (1169, [1168]);
  (1171, [1170]); (1173, [1172]); (1175, [1174]); (1177, [1176]); (1179, [1178]);
  (1181, [1180]); (1183, [1182]); (1185, [1184]); (1187, [1186]); (1189, [1188]);
  (1191, [1190]); (1193, [1192]); (1195, [1194]); (1197, [1196]); (1199, [1198]);
  (1201, [1200]); (1203, [1202]); (1205, [1204]); (1207, [1206]); (1209, [1208]);
  (1211, [1210]); (1213, [1212]); (1215, [1214]); (1218, [1217]); (1220, [1219]);
  (1222, [1221]); (1224, [1223]); (1226, [1225]); (1228, [1227]); (1230, [1229]);
  (1231, [1216]); (1233, [1232]); (1235, [1234]); (1237, [1236]); (1239, [1238]);
  (1241, [1240]); (1243, [1242]); (1245, [1244]); (1247, [1246]); (1249, [1248]);
  (1251, [1250]); (1253, [1252]); (1255, [1254]); (1257, [1256]); (1259, [1258]);
  (1261, [1260]); (1263, [1262]); (1265, [1264]); (1267, [1266]); (1269, [1268]);
  (1271, [1270]); (1273, [1272]); (1275, [1274]); (1277, [1276]); (1279, [1278]);
  (1281, [1280]); (1283, [1282]); (1285, [1284]); (1287, [1286]); (1289, [1288]);
  (1291, [1290]); (1293, [1292]); (1295, [1294]); (1297, [1296]); (1299, [1298]);
  (1301, [1300]); (1303, [1302]); (1305, [1304]); (1307, [1306]); (1309, [1308]);
  (1311, [1310]); (1313, [1312]); (1315, [1314]); (1317, [1316]); (1319, [1318]);
  (1321, [1320]); (1323, [1322]); (1325, [1324]); (1327, [1326]); (1377, [1329]);
  (1378, [1330]); (1379, [1331]); (1380, [1332]); (1381, [1333]); (1382, [1334]);
  (1383, [1335]); (1384, [1336]); (1385, [1337]); (1386, [1338]); (1387, [1339]);
  (1388, [1340]); (1389, [1341]); (1390, [1342]); (1391, [1343]); (1392, [1344]);
  (1393, [1345]); (1394, [1346]); (1395, [1347]); (1396, [1348]); (1397, [1349]);
  (1398, [1350]); (1399, [1351]); (1400, [1352]); (1401, [1353]); (1402, [1354]);
  (1403, [1355]); (1404, [1356]); (1405, [1357]); (1406, [1358]); (1407, [1359]);
  (1408, [1360]); (1409, [1361]); (1410, [1362]); (1411, [1363]); (1412, [1364]);
  (1413, [1365]); (1414, [1366]); (1415, [1333; 1362]); (4304, [7312]); (4305, [7313]);
  (4306, [7314]); (4307, [7315]); (4308, [7316]); (4309, [7317]); (4310, [7318]);
  (4311, [7319]); (4312, [7320]); (4313, [7321]); (4314, [7322]); (4315, [7323]);
  (4316, [7324]); (4317, [7325]); (4318, [7326]); (4319, [7327]); (4320, [7328]);
  (4321, [7329]); (4322, [7330]); (4323, [7331]); (4324, [7332]); (4325, [7333]);
  (4326, [7334]); (4327, [7335]); (4328, [7336]); (4329, [7337]); (4330, [7338]);
  (4331, [7339]); (4332, [7340]); (4333, [7341]); (4334, [7342]); (4335, [7343]);
  (4336, [7344]); (4337, [7345]); (4338, [7346]); (4339, [7347]); (4340, [7348]);
  (4341, [7349]); (4342, [7350]); (4343, [7351]); (4344, [7352]); (4345, [7353]);
  (4346, [7354]); (4349, [7357]); (4350, [7358]); (4351, [7359]); (5112, [5104]);
  (5113, [5105]); (5114, [5106]); (5115, [5107]); (5116, [5108]); (5117, [5109]);
  (7296, [1042]); (7297, [1044]); (7298, [1054]); (7299, [1057]); (7300, [1058]);
  (7301, [1058]); (7302, [1066]); (7303, [1122]); (7304, [42570]); (7545, [42877]);
  (7549, [11363]); (7566, [42950]); (7681, [7680]); (7683, [7682]); (7685, [7684]);
  (7687, [7686]); (7689, [7688]); (7691, [7690]); (7693, [7692]); (7695, [7694]);
  (7697, [7696]); (7699, [7698]); (7701, [7700]); (7703, [7702]); (7705, [7704]);
  (7707, [7706]); (7709, [7708]); (7711, [7710]); (7713, [7712]); (7715, [7714]);
  (7717, [7716]); (7719, [7718]); (7721, [7720]); (7723, [7722]); (7725, [7724]);
  (7727, [7726]); (7729, [7728]); (7731, [7730]); (7733, [7732]); (7735, [7734]);
  (7737, [7736]); (7739, [7738]); (7741, [7740]); (7743, [7742]); (7745, [7744]);
  (7747, [7746]); (7749, [7748]); (7751, [7750]); (7753, [7752]); (7755, [7754]);
  (7757, [7756]); (7759, [7758]); (7761, [7760]); (7763, [7762]); (7765, [7764]);
  (7767, [7766]); (7769, [7768]); (7771, [7770]); (7773, [7772]); (7775, [7774]);
  (7777, [7776]); (7779, [7778]); (7781, [7780]); (7783, [7782]); (7785, [7784]);
  (7787, [7786]); (7789, [7788]); (7791, [7790]); (7793, [7792]); (7795, [7794]);
  (7797, [7796]); (7799, [7798]); (7801, [7800]); (7803, [7802]); (7805, [7804]);
  (7807, [7806]); (7809, [7808]); (7811, [7810]); (7813, [7812]); (7815, [7814]);
  (7817, [7816]); (7819, [7818]); (7821, [7820]); (7823, [7822]); (7825, [7824]);
  (7827, [7826]); (7829, [7828]); (7830, [72; 817]); (7831, [84; 776]); (7832, [87; 778]);
  (7833, [89; 778]); (7834, [65; 702]); (7835, [7776]); (7841, [7840]); (7843, [7842]);
  (7845, [7844]); (7847, [7846]); (7849, [7848]); (7851, [7850]); (7853, [7852]);
  (7855, [7854]); (7857, [7856]); (7859, [7858]); (7861, [7860]); (7863, [7862]);
  (7865, [7864]); (7867, [7866]); (7869, [7868]); (7871, [7870]); (7873, [7872]);
  (7875, [7874]); (7877, [7876]); (7879, [7878]); (7881, [7880]); (7883, [7882]);
  (7885, [7884]); (7887, [7886]); (7889, [7888]); (7891, [7890]); (7893, [7892]);
  (7895, [7894]); (7897, [7896]); (7899, [7898]); (7901, [7900]); (7903, [7902]);
  (7905, [7904]); (7907, [7906]); (7909, [7908]); (7911, [7910]); (7913, [7912]);
  (7915, [7914]); (7917, [7916]); (7919, [7918]); (7921, [7920]); (7923, [7922]);
  (7925, [7924]); (7927, [7926]); (7929, [7928]); (7931, [7930]); (7933, [7932]);
  (7935, [7934]); (7936, [7944]); (7937, [7945]); (7938, [7946]); (7939, [7947]);
  (7940, [7948]); (7941, [7949]); (7942, [7950]); (7943, [7951]); (7952, [7960]);
  (7953, [7961]); (7954, [7962]); (7955, [7963]); (7956, [7964]); (7957, [7965]);
  (7968, [7976]); (7969, [7977]); (7970, [7978]); (7971, [7979]); (7972, [7980]);
  (7973, [7981]); (7974, [7982]); (7975, [7983]); (7984, [7992]); (7985, [7993]);
  (7986, [7994]); (7987, [7995]); (7988, [7996]); (7989, [7997]); (7990, [7998]);
  (7991, [7999]); (8000, [8008]); (8001, [8009]); (8002, [8010]); (8003, [8011]);
  (8004, [8012]); (8005, [8013]); (8016, [933; 787]); (8017, [8025]); (8018, [933; 787; 768]);
  (8019, [8027]); (8020, [933; 787; 769]); (8021, [8029]); (8022, [933; 787; 834]);
  (8023, [8031]); (8032, [8040]); (8033, [8041]); (8034, [8042]); (8035, [8043]);
  (8036, [8044]); (8037, [8045]); (8038, [8046]); (8039, [8047]); (8048, [8122]);
  (8049, [8123]); (8050, [8136]); (8051, [8137]); (8052, [8138]); (8053, [8139]);
  (8054, [8154]); (8055, [8155]); (8056, [8184]); (8057, [8185]); (8058, [8170]);
  (8059, [8171]); (8060, [8186]); (8061, [8187]); (8064, [7944; 921]); (8065, [7945; 921]);
  (8066, [7946; 921]); (8067, [7947; 921]); (8068, [7948; 921]); (8069, [7949; 921]);
  (8070, [7950; 921]); (8071, [7951; 921]); (8072, [7944; 921]); (8073, [7945; 921]);
  (8074, [7946; 921]); (8075, [7947; 921]); (8076, [7948; 921]); (8077, [7949; 921]);
  (8078, [7950; 921]); (8079, [7951; 921]); (8080, [7976; 921]); (8081, [7977; 921]);
  (8082, [7978; 921]); (8083, [7979; 921]); (8084, [7980; 921]); (8085, [7981; 921]);
  (8086, [7982; 921]); (8087, [7983; 921]); (8088, [7976; 921]); (8089, [7977; 921]);
  (8090, [7978; 921]); (8091, [7979; 921]); (8092, [7980; 921]); (8093, [7981; 921]);
  (8094, [7982; 921]); (8095, [7983; 921]); (8096, [8040; 921]); (8097, [8041; 921]);
  (8098, [8042; 921]); (8099, [8043; 921]); (8100, [8044; 921]); (8101, [8045; 921]);
  (8102, [8046; 921]); (8103, [8047; 921]); (8104, [8040; 921]); (8105, [8041; 921]);
  (8106, [8042; 921]); (8107, [8043; 921]); (8108, [8044; 921]); (8109, [8045; 921]);
  (8110, [8046; 921]); (8111, [8047; 921]); (8112, [8120]); (8113, [8121]);
  (8114, [8122; 921]); (8115, [913; 921]); (8116, [902; 921]); (8118, [913; 834]);
  (8119, [913; 834; 921]); (8124, [913; 921]); (8126, [921]); (8130, [8138; 921]);
  (8131, [919; 921]); (8132, [905; 921]); (8134, [919; 834]); (8135, [919; 834; 921]);
  (8140, [919; 921]); (8144, [8152]); (8145, [8153]); (8146, [921; 776; 768]);
  (8147, [921; 776; 769]); (8150, [921; 834]); (8151, [921; 776; 834]); (8160, [8168]);
  (8161, [8169]); (8162, [933; 776; 768]); (8163, [933; 776; 769]); (8164, [929; 787]);
  (8165, [8172]); (8166, [933; 834]); (8167, [933; 776; 834]); (8178, [8186; 921]);
  (8179, [937; 921]); (8180, [911; 921]); (8182, [937; 834]); (8183, [937; 834; 921]);
  (8188, [937; 921]); (8526, [8498]); (8560, [8544]); (8561, [8545]); (8562, [8546]);
  (8563, [8547]); (8564, [8548]); (8565, [8549]); (8566, [8550]); (8567, [8551]);
  (8568, [8552]); (8569, [8553]); (8570, [8554]); (8571, [8555]); (8572, [8556]);
  (8573, [8557]); (8574, [8558]); (8575, [8559]); (8580, [8579]); (9424, [9398]);
  (9425, [9399]); (9426, [9400]); (9427, [9401]); (9428, [9402]); (9429, [9403]);
  (9430, [9404]); (9431, [9405]); (9432, [9406]); (9433, [9407]); (9434, [9408]);
  (9435, [9409]); (9436, [9410]); (9437, [9411]); (9438, [9412]); (9439, [9413]);
  (9440, [9414]); (9441, [9415]); (9442, [9416]); (9443, [9417]); (9444, [9418]);
  (9445, [9419]); (9446, [9420]); (9447, [9421]); (9448, [9422]); (9449, [9423]);
  (11312, [11264]); (11313, [11265]); (11314, [11266]); (11315, [11267]); (11316, [11268]);
  (11317, [11269]); (11318, [11270]); (11319, [11271]); (11320, [11272]); (11321, [11273]);
  (11322, [11274]); (11323, [11275]); (11324, [11276]); (11325, [11277]); (11326, [11278]);
  (11327, [11279]); (11328, [11280]); (11329, [11281]); (11330, [11282]); (11331, [11283]);
  (11332, [11284]); (11333, [11285]); (11334, [11286]); (11335, [11287]); (11336, [11288]);
  (11337, [11289]); (11338, [11290]); (11339, [11291]); (11340, [11292]); (11341, [11293]);
  (11342, [11294]); (11343, [11295]); (11344, [11296]); (11345, [11297]); (11346, [11298]);
  (11347, [11299]); (11348, [11300]); (11349, [11301]); (11350, [11302]); (11351, [11303]);
  (11352, [11304]); (11353, [11305]); (11354, [11306]); (11355, [11307]); (11356, [11308]);
  (11357, [11309]); (11358, [11310]); (11359, [11311]); (11361, [11360]); (11365, [570]);
  (11366, [574]); (11368, [11367]); (11370, [11369]); (11372, [11371]); (11379, [11378]);
  (11382, [11381]); (11393, [11392]); (11395, [11394]); (11397, [11396]); (11399, [11398]);
  (11401, [11400]); (11403, [11402]); (11405, [11404]); (11407, [11406]); (11409, [11408]);
  (11411, [11410]); (11413, [11412]); (11415, [11414]); (11417, [11416]); (11419, [11418]);
  (11421, [11420]); (11423, [11422]); (11425, [11424]); (11427, [11426]); (11429, [11428]);
  (11431, [11430]); (11433, [11432]); (11435, [11434]); (11437, [11436]); (11439, [11438]);
  (11441, [11440]); (11443, [11442]); (11445, [11444]); (11447, [11446]); (11449, [11448]);
  (11451, [11450]); (11453, [11452]); (11455, [11454]); (11457, [11456]); (11459, [11458]);
  (11461, [11460]); (11463, [11462]); (11465, [11464]); (11467, [11466]); (11469, [11468]);
  (11471, [11470]); (11473, [11472]); (11475, [11474]); (11477, [11476]); (11479, [11478]);
  (11481, [11480]); (11483, [11482]); (11485, [11484]); (11487, [11486]); (11489, [11488]);
  (11491, [11490]); (11500, [11499]); (11502, [11501]); (11507, [11506]); (11520, [4256]);
  (11521, [4257]); (11522, [4258]); (11523, [4259]); (11524, [4260]); (11525, [4261]);
  (11526, [4262]); (11527, [4263]); (11528, [4264]); (11529, [4265]); (11530, [4266]);
  (11531, [4267]); (11532, [4268]); (11533, [4269]); (11534, [4270]); (11535, [4271]);
  (11536, [4272]); (11537, [4273]); (11538, [4274]); (11539, [4275]); (11540, [4276]);
  (11541, [4277]); (11542, [4278]); (11543, [4279]); (11544, [4280]); (11545, [4281]);
  (11546, [4282]); (11547, [4283]); (11548, [4284]); (11549, [4285]); (11550, [4286]);
  (11551, [4287]); (11552, [4288]); (11553, [4289]); (11554, [4290]); (11555, [4291]);
  (11556, [4292]); (11557, [4293]); (11559, [4295]); (11565, [4301]); (42561, [42560]);
  (42563, [42562]); (42565, [42564]); (42567, [42566]); (42569, [42568]); (42571, [42570]);
  (42573, [42572]); (42575, [42574]); (42577, [42576]); (42579, [42578]); (42581, [42580]);
  (42583, [42582]); (42585, [42584]); (42587, [42586]); (42589, [42588]); (42591, [42590]);
  (42593, [42592]); (42595, [42594]); (42597, [42596]); (42599, [42598]); (42601, [42600]);
  (42603, [42602]); (42605, [42604]); (42625, [42624]); (42627, [42626]); (42629, [42628]);
  (42631, [42630]); (42633, [42632]); (42635, [42634]); (42637, [42636]); (42639, [42638]);
  (42641, [42640]); (42643, [42642]); (42645, [42644]); (42647, [42646]); (42649, [42648]);
  (42651, [42650]); (42787, [42786]); (42789, [42788]); (42791, [42790]); (42793, [42792]);
  (42795, [42794]); (42797, [42796]); (42799, [42798]); (42803, [42802]); (42805, [42804]);
  (42807, [42806]); (42809, [42808]); (42811, [42810]); (42813, [42812]); (42815, [42814]);
  (42817, [42816]); (42819, [42818]); (42821, [42820]); (42823, [42822]); (42825, [42824]);
  (42827, [42826]); (42829, [42828]); (42831, [42830]); (42833, [42832]); (42835, [42834]);
  (42837, [42836]); (42839, [42838]); (42841, [42840]); (42843, [42842]); (42845, [42844]);
  (42847, [42846]); (42849, [42848]); (42851, [42850]); (42853, [42852]); (42855, [42854]);
  (42857, [42856]); (42859, [42858]); (42861, [42860]); (42863, [42862]); (42874, [42873]);
  (42876, [42875]); (42879, [42878]); (42881, [42880]); (42883, [42882]); (42885, [42884]);
  (42887, [42886]); (42892, [42891]); (42897, [42896]); (42899, [42898]); (42900, [42948]);
  (42903, [42902]); (42905, [42904]); (42907, [42906]); (42909, [42908]); (42911, [42910]);
  (42913, [42912]); (42915, [42914]); (42917, [42916]); (42919, [42918]); (42921, [42920]);
  (42933, [42932]); (42935, [42934]); (42937, [42936]); (42939, [42938]); (42941, [42940]);
  (42943, [42942]); (42945, [42944]); (42947, [42946]); (42952, [42951]); (42954, [42953]);
  (42961, [42960]); (42967, [42966]); (42969, [42968]); (42998, [42997]); (43859, [42931]);
  (43888, [5024]); (43889, [5025]); (43890, [5026]); (43891, [5027]); (43892, [5028]);
  (43893, [5029]); (43894, [5030]); (43895, [5031]); (43896, [5032]); (43897, [5033]);
  (43898, [5034]); (43899, [5035]); (43900, [5036]); (43901, [5037]); (43902, [5038]);
  (43903, [5039]); (43904, [5040]); (43905, [5041]); (43906, [5042]); (43907, [5043]);
  (43908, [5044]); (43909, [5045]); (43910, [5046]); (43911, [5047]); (43912, [5048]);
  (43913, [5049]); (43914, [5050]); (43915, [5051]); (43916, [5052]); (43917, [5053]);
  (43918, [5054]); (43919, [5055]); (43920, [5056]); (43921, [5057]); (43922, [5058]);
  (43923, [5059]); (43924, [5060]); (43925, [5061]); (43926, [5062]); (43927, [5063]);
  (43928, [5064]); (43929, [5065]); (43930, [5066]); (43931, [5067]); (43932, [5068]);
  (43933, [5069]); (43934, [5070]); (43935, [5071]); (43936, [5072]); (43937, [5073]);
  (43938, [5074]); (43939, [5075]); (43940, [5076]); (43941, [5077]); (43942, [5078]);
  (43943, [5079]); (43944, [5080]); (43945, [5081]); (43946, [5082]); (43947, [5083]);
  (43948, [5084]); (43949, [5085]); (43950, [5086]); (43951, [5087]); (43952, [5088]);
  (43953, [5089]); (43954, [5090]); (43955, [5091]); (43956, [5092]); (43957, [5093]);
  (43958, [5094]); (43959, [5095]); (43960, [5096]); (43961, [5097]); (43962, [5098]);
  (43963, [5099]); (43964, [5100]); (43965, [5101]); (43966, [5102]); (43967, [5103]);
  (64256, [70; 70]); (64257, [70; 73]); (64258, [70; 76]); (64259, [70; 70; 73]);
  (64260, [70; 70; 76]); (64261, [83; 84]); (64262, [83; 84]); (64275, [1348; 1350]);
  (64276, [1348; 1333]); (64277, [1348; 1339]); (64278, [1358; 1350]); (64279, [1348; 1341]);
  (65345, [65313]); (65346, [65314]); (65347, [65315]); (65348, [65316]); (65349, [65317]);
  (65350, [65318]); (65351, [65319]); (65352, [65320]); (65353, [65321]); (65354, [65322]);
  (65355, [65323]); (65356, [65324]); (65357, [65325]); (65358, [65326]); (65359, [65327]);
  (65360, [65328]); (65361, [65329]); (65362, [65330]); (65363, [65331]); (65364, [65332]);
  (65365, [65333]); (65366, [65334]); (65367, [65335]); (65368, [65336]); (65369, [65337]);
  (65370, [65338]); (66600, [66560]); (66601, [66561]); (66602, [66562]); (66603, [66563]);
  (66604, [66564]); (66605, [66565]); (66606, [66566]); (66607, [66567]); (66608, [66568]);
  (66609, [66569]); (66610, [66570]); (66611, [66571]); (66612, [66572]); (66613, [66573]);
  (66614, [66574]); (66615, [66575]); (66616, [66576]); (66617, [66577]); (66618, [66578]);
  (66619, [66579]); (66620, [66580]); (66621, [66581]); (66622, [66582]); (66623, [66583]);
  (66624, [66584]); (66625, [66585]); (66626, [66586]); (66627, [66587]); (66628, [66588]);
  (66629, [66589]); (66630, [66590]); (66631, [66591]); (66632, [66592]); (66633, [66593]);
  (66634, [66594]); (66635, [66595]); (66636, [66596]); (66637, [66597]); (66638, [66598]);
  (66639, [66599]); (66776, [66736]); (66777, [66737]); (66778, [66738]); (66779, [66739]);
  (66780, [66740]); (66781, [66741]); (66782, [66742]); (66783, [66743]); (66784, [66744]);
  (66785, [66745]); (66786, [66746]); (66787, [66747]); (66788, [66748]); (66789, [66749]);
  (66790, [66750]); (66791, [66751]); (66792, [66752]); (66793, [66753]); (66794, [66754]);
  (66795, [66755]); (66796, [66756]); (66797, [66757]); (66798, [66758]); (66799, [66759]);
  (66800, [66760]); (66801, [66761]); (66802, [66762]); (66803, [66763]); (66804, [66764]);
  (66805, [66765]); (66806, [66766]); (66807, [66767]); (66808, [66768]); (66809, [66769]);
  (66810, [66770]); (66811, [66771]); (66967, [66928]); (66968, [66929]); (66969, [66930]);
  (66970, [66931]); (66971, [66932]); (66972, [66933]); (66973, [66934]); (66974, [66935]);
  (66975, [66936]); (66976, [66937]); (66977, [66938]); (66979, [66940]); (66980, [66941]);
  (66981, [66942]); (66982, [66943]); (66983, [66944]); (66984, [66945]); (66985, [66946]);
  (66986, [66947]); (66987, [66948]); (66988, [66949]); (66989, [66950]); (66990, [66951]);
  (66991, [66952]); (66992, [66953]); (66993, [66954]); (66995, [66956]); (66996, [66957]);
  (66997, [66958]); (66998, [66959]); (66999, [66960]); (67000, [66961]); (67001, [66962]);
  (67003, [66964]); (67004, [66965]); (68800, [68736]); (68801, [68737]); (68802, [68738]);
  (68803, [68739]); (68804, [68740]); (68805, [68741]); (68806, [68742]); (68807, [68743]);
  (68808, [68744]); (68809, [68745]); (68810, [68746]); (68811, [68747]); (68812, [68748]);
  (68813, [68749]); (68814, [68750]); (68815, [68751]); (68816, [68752]); (68817, [68753]);
  (68818, [68754]); (68819, [68755]); (68820, [68756]); (68821, [68757]); (68822, [68758]);
  (68823, [68759]); (68824, [68760]); (68825, [68761]); (68826, [68762]); (68827, [68763]);
  (68828, [68764]); (68829, [68765]); (68830, [68766]); (68831, [68767]); (68832, [68768]);
  (68833, [68769]); (68834, [68770]); (68835, [68771]); (68836, [68772]); (68837, [68773]);
  (68838, [68774]); (68839, [68775]); (68840, [68776]); (68841, [68777]); (68842, [68778]);
  (68843, [68779]); (68844, [68780]); (68845, [68781]); (68846, [68782]); (68847, [68783]);
  (68848, [68784]); (68849, [68785]); (68850, [68786]); (71872, [71840]); (71873, [71841]);
  (71874, [71842]); (71875, [71843]); (71876, [71844]); (71877, [71845]); (71878, [71846]);
  (71879, [71847]); (71880, [71848]); (71881, [71849]); (71882, [71850]); (71883, [71851]);
  (71884, [71852]); (71885, [71853]); (71886, [71854]); (71887, [71855]); (71888, [71856]);
  (71889, [71857]); (71890, [71858]); (71891, [71859]); (71892, [71860]); (71893, [71861]);
  (71894, [71862]); (71895, [71863]); (71896, [71864]); (71897, [71865]); (71898, [71866]);
  (71899, [71867]); (71900, [71868]); (71901, [71869]); (71902, [71870]); (71903, [71871]);
  (93792, [93760]); (93793, [93761]); (93794, [93762]); (93795, [93763]); (93796, [93764]);
  (93797, [93765]); (93798, [93766]); (93799, [93767]); (93800, [93768]); (93801, [93769]);
  (93802, [93770]); (93803, [93771]); (93804, [93772]); (93805, [93773]); (93806, [93774]);
  (93807, [93775]); (93808, [93776]); (93809, [93777]); (93810, [93778]); (93811, [93779]);
  (93812, [93780]); (93813, [93781]); (93814, [93782]); (93815, [93783]); (93816, [93784]);
  (93817, [93785]); (93818, [93786]); (93819, [93787]); (93820, [93788]); (93821, [93789]);
  (93822, [93790]); (93823, [93791]); (125218, [125184]); (125219, [125185]);
  (125220, [125186]); (125221, [125187]); (125222, [125188]); (125223, [125189]);
  (125224, [125190]); (125225, [125191]); (125226, [125192]); (125227, [125193]);
  (125228, [125194]); (125229, [125195]); (125230, [125196]); (125231, [125197]);
  (125232, [125198]); (125233, [125199]); (125234, [125200]); (125235, [125201]);
  (125236, [125202]); (125237, [125203]); (125238, [125204]); (125239, [125205]);
  (125240, [125206]); (125241, [125207]); (125242, [125208]); (125243, [125209]);
  (125244, [125210]); (125245, [125211]); (125246, [125212]); (125247, [125213]);
  (125248, [125214]); (125249, [125215]); (125250, [125216]); (125251, [125217])]
  )%N.

Fixpoint upper_lookup (cp : N) (table : list (N * list N)) : list N :=
  match table with
  | [] => [cp]
  | (c, u) :: table' => if N.eqb c cp then u else upper_lookup cp table'
  end.

(** [chr(cp).upper()], as code points. *)
Definition upper_code_point (cp : N) : list N :=
  if (cp <? 128)%N then [N_of_ascii (upper_char (ascii_of_N cp))]
  else upper_lookup cp UPPER_TABLE.

(** The first byte of a character: an ASCII character is put out upper
    cased at once; a lead byte opens a sequence of 2, 3 or 4 bytes, of which
    [pending] holds the bytes read, [need] counts the bytes to come and
    [acc] holds the bits of the code point read so far; any other byte is
    put out as it is. *)
Definition start (b : ascii) : string * (string * nat * N) :=
  let n := N_of_ascii b in
  (if n <? 128 then (String (upper_char b) EmptyString, (EmptyString, 0%nat, 0))
   else if (192 <=? n) && (n <? 224)
   then (EmptyString, (String b EmptyString, 1%nat, n - 192))
   else if (224 <=? n) && (n <? 240)
   then (EmptyString, (String b EmptyString, 2%nat, n - 224))
   else if (240 <=? n) && (n <? 248)
   then (EmptyString, (String b EmptyString, 3%nat, n - 240))
   else (String b EmptyString, (EmptyString, 0%nat, 0)))%N.

(** Upper casing from the middle of a character.  A continuation byte that
    completes the sequence puts out the encoding of the upper-cased code
    point.  Bytes that are no UTF-8 encoding, which a Python [str] never
    holds, are put out as they are. *)
Fixpoint upper_from (pending : string) (need : nat) (acc : N) (s : string) : string :=
  match s with
  | EmptyString => pending
  | String b s' =>
      match need, is_continuation b with
      | S k, true =>
          let acc' := (acc * 64 + (N_of_ascii b - 128))%N in
          match k with
          | O => utf8_all (upper_code_point acc') ++ upper_from EmptyString 0 0%N s'
          | S _ => upper_from (pending ++ String b EmptyString) k acc' s'
          end
      | _, _ =>
          let '(out, (opened, k, bits)) := start b in
          pending ++ out ++ upper_from opened k bits s'
      end
  end.

(** [s.upper()]: every character becomes its upper-case form, which for
    some characters is more than one character. *)
Definition upper (s : string) : string := upper_from EmptyString 0 0%N s.

(** [sub in s] for two strings: [sub] occurs in [s] at some offset. *)
Fixpoint contains (sub s : string) : bool :=
  if String.prefix sub s then true
  else match s with
       | EmptyString => false
       | String _ s' => contains sub s'
       end.

(** [sep.join(parts)] *)
Definition join (sep : string) (parts : list string) : string :=
  String.concat sep parts.

(** [s.split(c)] for a separator of one character. *)
Fixpoint split (c : ascii) (s : string) : list string :=
  match s with
  | EmptyString => [EmptyString]
  | String a s' =>
      if Ascii.eqb a c then EmptyString :: split c s'
      else match split c s' with
           | [] => [String a EmptyString]
           | h :: t => String a h :: t
           end
  end.

Fixpoint lstrip (c : ascii) (s : string) : string :=
  match s with
  | EmptyString => EmptyString
  | String a s' => if Ascii.eqb a c then lstrip c s' else s
  end.

Definition rev_string (s : string) : string :=
  string_of_list_ascii (rev (list_ascii_of_string s)).

(** [s.strip(c)] for a set of one character. *)
Definition strip (c : ascii) (s : string) : string :=
  rev_string (lstrip c (rev_string (lstrip c s))).

(** [str(x)] inside an f-string, for a value that is a string or [None]. *)
Definition format_opt (x : option string) : string :=
  match x with
  | Some s => s
  | None => "None"
  end.

(** Truth value of a string: [not s] holds exactly for the empty one. *)
Definition truthy (s : string) : bool :=
  match s with
  | EmptyString => false
  | String _ _ => true
  end.

End Py.

(** ** Exceptions, events and the state-and-exception monad *)

(** The exceptions that occur in the model.  [ApiError] stands for whatever
    the model client raises (an instance of [Exception]); [ProviderError]
    for whatever the market data library raises; [IndexError] for a list
    index out of range; [AttributeError] for a method called on [None];
    [StopScript] is how [st.stop()] ends the script run, it is not an
    instance of [Exception]. *)
Inductive exn : Type :=
| ApiError
| ProviderError
| IndexError
| AttributeError
| StopScript.

Definition is_Exception (e : exn) : bool :=
  match e with
  | StopScript => false
  | _ => true
  end.

(** What the script does to the outside world. *)
Inductive event : Type :=
| YfHistory (symbol : string)             (* yf.Ticker(symbol).history(period="1d") *)
| YfNews (symbol : string)                (* yf.Ticker(symbol).news *)
| GenerateContent (model contents : string) (* client.models.generate_content(...) *)
| Sleep (seconds : nat)                   (* time.sleep(seconds) *)
| Ui (target method : string) (args : list string). (* a Streamlit call target.method(args) *)

Inductive result (A : Type) : Type :=
| Val (a : A)
| Exc (e : exn).
Arguments Exc {A} e.

(** A computation reads the log so far and returns a value or an exception,
    together with the extended log: effects that happened before an
    exception was raised stay in the log. *)
Definition M (A : Type) : Type := list event -> result A * list event.

Definition ret {A} (a : A) : M A := fun log => (Val a, log).

Definition bind {A B} (m : M A) (k : A -> M B) : M B :=
  fun log =>
    match m log with
    | (Val a, log') => k a log'
    | (Exc e, log') => (Exc e, log')
    end.

Definition raise {A} (e : exn) : M A := fun log => (Exc e, log).

Definition emit (ev : event) : M unit := fun log => (Val tt, (log ++ [ev])%list).

(** [try: m  except <class>: handler], where [catches] says which
    exceptions the clause matches. *)
Definition try_except {A} (catches : exn -> bool) (m : M A) (handler : M A) : M A :=
  fun log =>
    match m log with
    | (Val a, log') => (Val a, log')
    | (Exc e, log') => if catches e then handler log' else (Exc e, log')
    end.

(** A bare [except:] matches everything. *)
Definition any_exn (e : exn) : bool := true.

Declare Scope py_scope.
Delimit Scope py_scope with py.
Notation "x <- m ;; k" := (bind m (fun x => k))
  (at level 61, m at next level, right associativity) : py_scope.
Notation "m ;; k" := (bind m (fun _ => k))
  (at level 61, right associativity) : py_scope.
Local Open Scope py_scope.

(** Number of model calls recorded in a log. *)
Definition is_generate (ev : event) : bool :=
  match ev with
  | GenerateContent _ _ => true
  | _ => false
  end.

Definition gen_calls (log : list event) : nat :=
  List.length (filter is_generate log).

(** ** The outside world *)

(** The model client: the answer to the [n]-th call of the run (counting
    from 0) with the given model and contents is [None] when the call, or
    reading [response.text], raises an [Exception], and otherwise the value
    of [response.text]: a text, or Python's [None] for a response without
    text.  The answer may differ from one call to the next. *)
Definition ModelClient : Type := nat -> string -> string -> option (option string).

Definition generate_content (client : ModelClient) (model contents : string)
  : M (option string) :=
  fun log =>
    match client (gen_calls log) model contents with
    | Some text => (Val text, (log ++ [GenerateContent model contents])%list)
    | None => (Exc ApiError, (log ++ [GenerateContent model contents])%list)
    end.

Definition time_sleep (seconds : nat) : M unit := emit (Sleep seconds).

Definition ui (target method : string) (args : list string) : M unit :=
  emit (Ui target method args).

(** ** class Agent *)

Record Agent : Type := mkAgent {
  name : string;
  model : string;
  instructions : string
}.

Definition SIM_TECHNICAL : string :=
  "SIMULATION: Trend is UP. RSI is 40. Strong Support at $130.".
Definition SIM_NEWS : string :=
  "SIMULATION: Market sentiment is cautious but optimistic. Earnings report pending.".
Definition SIM_DECISION : string :=
  "SIMULATION DECISION: BUY. (API Quota Reached).".

(** The number of iterations of [for attempt in range(2)]. *)
Definition max_attempts : nat := 2.

Definition final_prompt (self : Agent) (context prompt : string) : string :=
  instructions self ++ Py.nl ++ "DATA:" ++ Py.nl ++ context ++ Py.nl ++ "TASK: " ++ prompt.

(** The loop of [Agent.work]: [Some text] when an iteration executed
    [return response.text], [None] when the loop ran to its end. *)
Fixpoint attempt_loop (client : ModelClient) (attempts : nat) (model contents : string)
  : M (option (option string)) :=
  match attempts with
  | O => ret None
  | S rest =>
      try_except is_Exception
        (text <- generate_content client model contents ;;
         ret (Some text))
        (time_sleep 2 ;;
         attempt_loop client rest model contents)
  end.

(** The canned text selected after the loop. *)
Definition simulated (agent_name : string) : string :=
  if Py.contains "Technical" agent_name then SIM_TECHNICAL
  else if Py.contains "News" agent_name then SIM_NEWS
  else SIM_DECISION.

(** The value returned is a text or, for a response without text, [None]. *)
Definition work (client : ModelClient) (self : Agent) (context prompt status_box : string)
  : M (option string) :=
  ui status_box "text" ["🔄 " ++ name self ++ " is analyzing..."] ;;
  r <- attempt_loop client max_attempts (model self) (final_prompt self context prompt) ;;
  match r with
  | Some text => ret text
  | None =>
      ui status_box "warning" ["⚠️ API busy, using simulation data."] ;;
      ret (Some (simulated (name self)))
  end.

(** ** The market data helpers and the "Run Analysis" block *)

(** The one-day price history of a symbol: an empty frame, or its last row
    with the values of [history["Close"].iloc[-1]] and
    [history["Open"].iloc[-1]]. *)
Inductive history_frame (F : Type) : Type :=
| FrameEmpty
| FrameLast (close open_ : F).
Arguments FrameEmpty {F}.

(** A news item is a dictionary; [dict_get key d] is [d.get(key)]. *)
Definition news_item : Type := list (string * string).

Fixpoint dict_get (key : string) (d : news_item) : option string :=
  match d with
  | [] => None
  | (k, v) :: d' => if String.eqb k key then Some v else dict_get key d'
  end.

(** The label shown by the final banner. *)
Inductive Signal : Type := BUY | SELL | HOLD.

(** What a completed run has computed: [price_str], [news_str], the three
    agent results and the banner that was shown. *)
Record report : Type := mkReport {
  price_str : string;
  news_str : string;
  res_a : option string;
  res_b : option string;
  res_c : option string;
  signal : Signal
}.

Section Pipeline.

(** The price values are floating point numbers.  Their type, the three
    arithmetic operations of the percent change and the two formats
    [:.2f] and [:+.2f] are kept abstract. *)
Variable F : Type.
Variables fsub fdiv fmul : F -> F -> F.
Variable hundred : F.
Variables fmt_2f fmt_signed_2f : F -> string.

(** The answers of the outside world during one run: the model client,
    and for each symbol the price history and the news list of the
    market data library ([None]: the library raises). *)
Record Env : Type := mkEnv {
  client : ModelClient;
  yf_history : string -> option (history_frame F);
  yf_news : string -> option (list news_item)
}.

Variable env : Env.

Definition ticker_history (symbol : string) : M (history_frame F) :=
  fun log =>
    match yf_history env symbol with
    | Some h => (Val h, (log ++ [YfHistory symbol])%list)
    | None => (Exc ProviderError, (log ++ [YfHistory symbol])%list)
    end.

Definition ticker_news (symbol : string) : M (list news_item) :=
  fun log =>
    match yf_news env symbol with
    | Some l => (Val l, (log ++ [YfNews symbol])%list)
    | None => (Exc ProviderError, (log ++ [YfNews symbol])%list)
    end.

Definition get_stock_price (symbol : string) : M (option string) :=
  try_except any_exn
    (history <- ticker_history symbol ;;
     match history with
     | FrameEmpty => ret None
     | FrameLast current open_p =>
         let change := fmul (fdiv (fsub current open_p) open_p) hundred in
         ret (Some ("$" ++ fmt_2f current ++ " (" ++ fmt_signed_2f change ++ "%)"))
     end)
    (ret None).

Definition headline (n : news_item) : string :=
  "- " ++ Py.format_opt (dict_get "title" n).

Definition get_market_news (symbol : string) : M string :=
  try_except any_exn
    (news <- ticker_news symbol ;;
     match news with
     | [] => ret "No specific news found."
     | _ :: _ => ret (Py.join Py.nl (map headline (firstn 3 news)))
     end)
    (ret "Error fetching news.").

(** [parts[i]] *)
Definition item (parts : list string) (i : nat) : M string :=
  match nth_error parts i with
  | Some s => ret s
  | None => raise IndexError
  end.

(** [st.stop()] *)
Definition st_stop {A} : M A :=
  fun log => (Exc StopScript, (log ++ [Ui "st" "stop" []])%list).

Definition final_context (res_a res_b : option string) : string :=
  "Tech: " ++ Py.format_opt res_a ++ Py.nl ++ "News: " ++ Py.format_opt res_b.

(** The label tested by the banner selection. *)
Definition classify (text : string) : Signal :=
  if Py.contains "BUY" (Py.upper text) then BUY
  else if Py.contains "SELL" (Py.upper text) then SELL
  else HOLD.

(** The banner selection.  [res_c.upper()] on [None] raises. *)
Definition decision_banner (res_c : option string) : M Signal :=
  match res_c with
  | None => raise AttributeError
  | Some text =>
      if Py.contains "BUY" (Py.upper text) then
        ui "container" "success" ["### 🟢 BUY SIGNAL" ++ Py.nl ++ Py.nl ++ text] ;;
        ui "st" "balloons" [] ;;
        ret BUY
      else if Py.contains "SELL" (Py.upper text) then
        ui "container" "error" ["### 🔴 SELL SIGNAL" ++ Py.nl ++ Py.nl ++ text] ;;
        ret SELL
      else
        ui "container" "warning" ["### 🟡 HOLD SIGNAL" ++ Py.nl ++ Py.nl ++ text] ;;
        ret HOLD
  end.

Definition model_name : string := "gemini-1.5-flash".

Definition agent_a : Agent :=
  mkAgent "Quant" model_name "Analyze technicals (Price, Trends). Be concise.".
Definition agent_b : Agent :=
  mkAgent "Journalist" model_name "Analyze sentiment from news headlines. Be concise.".
Definition agent_c : Agent :=
  mkAgent "CIO" model_name "You are a Chief Investment Officer. Decide BUY/SELL/HOLD.".

(** The part of the block after the market data check, where [price] is
    the non-empty [price_str].  [st.markdown] is given the result of an
    agent, recorded as the text it shows. *)
Definition run_agents (ticker price news : string) : M report :=
  value <- item (Py.split "(" price) 0 ;;
  part <- item (Py.split "(" price) 1 ;;
  ui "st" "metric" [ticker ++ " Live Price"; value; Py.strip ")" part] ;;
  ui "st" "columns" ["3"] ;;
  ui "st" "info" ["📊 **Technical Agent**"] ;;
  ui "st" "empty" [] ;;
  a <- work (client env) agent_a price ("Analyze " ++ ticker) "status_a" ;;
  ui "status_a" "success" ["✅ Complete"] ;;
  ui "st" "expander" ["View Technical Report"] ;;
  ui "st" "markdown" [Py.format_opt a] ;;
  ui "st" "info" ["📰 **News Agent**"] ;;
  ui "st" "empty" [] ;;
  b <- work (client env) agent_b news ("Analyze sentiment for " ++ ticker) "status_b" ;;
  ui "status_b" "success" ["✅ Complete"] ;;
  ui "st" "expander" ["View News Report"] ;;
  ui "st" "markdown" [Py.format_opt b] ;;
  ui "st" "info" ["👔 **CIO (Supervisor)**"] ;;
  ui "st" "empty" [] ;;
  ui "status_c" "text" ["🤔 Thinking..."] ;;
  c <- work (client env) agent_c (final_context a b) "Write a final email decision." "status_c" ;;
  ui "status_c" "success" ["✅ Decision Made"] ;;
  ui "st" "divider" [] ;;
  ui "st" "subheader" ["📧 Final Decision Email"] ;;
  ui "st" "container" [] ;;
  label <- decision_banner c ;;
  ret (mkReport price news a b c label).

(** The body of [if start_btn:]. *)
Definition run_analysis (ticker : string) : M report :=
  ui "st" "divider" [] ;;
  ui "st" "spinner" ["📡 Connecting to Market Data for " ++ ticker ++ "..."] ;;
  price <- get_stock_price ticker ;;
  news <- get_market_news ticker ;;
  match price with
  | Some p =>
      if Py.truthy p then run_agents ticker p news
      else
        ui "st" "error" ["❌ Could not find data for " ++ ticker ++ ". Please check the symbol."] ;;
        st_stop
  | None =>
      ui "st" "error" ["❌ Could not find data for " ++ ticker ++ ". Please check the symbol."] ;;
      st_stop
  end.

End Pipeline.

(** ** The rest of the script: header, sidebar, client, inputs *)

(** A widget call that returns what the user has put in. *)
Definition ask {A} (target method : string) (args : list string) (answer : A) : M A :=
  fun log => (Val answer, (log ++ [Ui target method args])%list).

(** A Streamlit call whose outcome, normal or an exception, is given. *)
Definition ui_outcome (target method : string) (args : list string) (r : result unit)
  : M unit :=
  fun log => (r, (log ++ [Ui target method args])%list).

(** An operation outside Streamlit whose outcome is given; it leaves no
    event. *)
Definition outcome {A} (r : result A) : M A := fun log => (r, log).

(** [try: m  except <class> as e: handler], the handler using [e]. *)
Definition try_except_as {A} (catches : exn -> bool) (m : M A) (handler : exn -> M A)
  : M A :=
  fun log =>
    match m log with
    | (Val a, log') => (Val a, log')
    | (Exc e, log') => if catches e then handler e log' else (Exc e, log')
    end.

(** What the user and the installation give to one run of the script:
    whether [st.image("banner.png", ...)] raises; the outcome of looking up
    "GOOGLE_API_KEY" in [st.secrets] (it raises, the key is not there, or
    its value); what the two text inputs of the sidebar and the ticker input
    hold; whether the two buttons were pressed; the outcome of
    [Client(api_key=...)] for a key; and the text [str(e)] of an
    exception. *)
Record Session : Type := mkSession {
  banner_file : result unit;
  secrets : result (option string);
  key_input : string;
  email_input : string;
  subscribe_btn : bool;
  new_client : string -> result unit;
  ticker_input : string;
  start_btn : bool;
  message : exn -> string
}.

(** Seconds spent in [time.sleep] according to a log. *)
Fixpoint slept (log : list event) : nat :=
  match log with
  | [] => 0
  | Sleep seconds :: log' => seconds + slept log'
  | _ :: log' => slept log'
  end.

Definition is_provider_call (ev : event) : bool :=
  match ev with
  | YfHistory _ | YfNews _ | GenerateContent _ _ => true
  | _ => false
  end.

Section Script.

Variable F : Type.
Variables fsub fdiv fmul : F -> F -> F.
Variable hundred : F.
Variables fmt_2f fmt_signed_2f : F -> string.
Variable env : Env F.
Variable session : Session.

Definition BANNER_CAPTION : string := "Autonomous Financial Multi-Agent System".

(** Section 1 of the script: page configuration, banner image with its
    fallback, title and welcome text.  Only the call on the banner file is
    given an outcome: the image from the web is loaded by the browser. *)
Definition page_header : M unit :=
  ui "st" "set_page_config" ["AI Hedge Fund"; "📈"; "wide"; "expanded"] ;;
  try_except any_exn
    (ui_outcome "st" "image" ["banner.png"; BANNER_CAPTION] (banner_file session))
    (ui "st" "image"
       ["https://images.unsplash.com/photo-1611974765270-ca1258634369"; BANNER_CAPTION]) ;;
  ui "st" "title" ["🤖 AI Hedge Fund Manager"] ;;
  ui "st" "markdown"
    [Py.nl ++ "**Welcome to the Future of Trading.** This system uses a team of **Autonomous AI Agents** to analyze stocks in real-time." ++ Py.nl].

(** The [try] block of the sidebar: the value of [api_key] after it. *)
Definition load_secret : M (option string) :=
  try_except is_Exception
    (found <- outcome (secrets session) ;;
     match found with
     | Some value =>
         ui "st" "success" ["✅ Key loaded from Secrets"] ;;
         ret (Some value)
     | None => ret None
     end)
    (ret None).

(** The branch [if not api_key:] of the sidebar. *)
Definition enter_key : M string :=
  typed <- ask "st" "text_input"
             ["Enter Gemini API Key"; "password"; "Get your free key at aistudio.google.com"]
             (key_input session) ;;
  if Py.truthy typed then ret typed
  else
    ui "st" "warning" ["⚠️ Please enter your API Key to unlock the agents."] ;;
    st_stop.

(** Section 2 of the script up to the divider: the value of [api_key]. *)
Definition api_access : M string :=
  ui "st" "image" ["https://cdn-icons-png.flaticon.com/512/9592/9592969.png"] ;;
  ui "st" "title" ["⚙️ Control Panel"] ;;
  ui "st" "markdown" ["### 🔑 API Access"] ;;
  loaded <- load_secret ;;
  match loaded with
  | Some key =>
      if Py.truthy key then
        ui "st" "success" ["✅ Connected"] ;;
        ret key
      else enter_key
  | None => enter_key
  end.

(** The subscription feature of the sidebar. *)
Definition alerts : M unit :=
  ui "st" "divider" [] ;;
  ui "st" "markdown" ["### 📧 Alerts"] ;;
  user_email <- ask "st" "text_input" ["Your Email Address"] (email_input session) ;;
  pressed <- ask "st" "button" ["Subscribe to Reports"] (subscribe_btn session) ;;
  if pressed then
    if Py.truthy user_email then
      ui "st" "spinner" ["Verifying..."] ;;
      time_sleep 1 ;;
      ui "st" "toast" ["✅ Subscribed! Alerts sent to " ++ user_email]
    else ui "st" "warning" ["Enter an email first."]
  else ret tt.

(** "Initialize Client". *)
Definition init_client (api_key : string) : M unit :=
  try_except_as is_Exception
    (outcome (new_client session api_key))
    (fun e =>
       ui "st" "error" ["❌ Connection Error: " ++ message session e] ;;
       st_stop).

(** The input area of section 5: the ticker and whether the analysis was
    asked for. *)
Definition input_area : M (string * bool) :=
  ui "st" "columns" ["3"; "1"] ;;
  ticker <- ask "st" "text_input"
              ["🔎 Enter Stock Ticker"; "NVDA"; "e.g. AAPL, TSLA, BTC-USD"]
              (ticker_input session) ;;
  ui "st" "write" [EmptyString] ;;
  ui "st" "write" [EmptyString] ;;
  pressed <- ask "st" "button" ["🚀 Run Analysis"; "primary"] (start_btn session) ;;
  ret (ticker, pressed).

(** One run of the whole script: [Some report] when the analysis was asked
    for and completed, [None] when it was not asked for. *)
Definition script : M (option report) :=
  page_header ;;
  api_key <- api_access ;;
  alerts ;;
  init_client api_key ;;
  input <- input_area ;;
  if snd input then
    rep <- run_analysis fsub fdiv fmul hundred fmt_2f fmt_signed_2f env (fst input) ;;
    ret (Some rep)
  else ret None.

End Script.

(** ** Notions used to state the properties *)

(** The run ended as the market data check prescribes: the error message for
    the symbol was shown and the script was stopped. *)
Definition no_market_data (ticker : string) (run : result report * list event) : Prop :=
  fst run = Exc StopScript /\
  exists before,
    snd run =
      (before ++
       [Ui "st" "error"
          [("❌ Could not find data for " ++ ticker ++ ". Please check the symbol.")%string];
        Ui "st" "stop" []])%list.




(** The events of [n] attempts that all failed: a model call and the pause
    that follows it, [n] times. *)
Fixpoint failed_attempts (n : nat) (model contents : string) : list event :=
  match n with
  | O => []
  | S k => GenerateContent model contents :: Sleep 2 :: failed_attempts k model contents
  end.

(** The events of one call of [work] in which the first [failed] attempts
    raised: the status text, the failed attempts, and then the call that
    answered ([answered = true]) or the warning of the fallback. *)
Definition work_events (self : Agent) (context prompt box : string) (failed : nat)
  (answered : bool) : list event :=
  (Ui box "text" [("🔄 " ++ name self ++ " is analyzing...")%string]
   :: failed_attempts failed (model self) (final_prompt self context prompt)
   ++ (if answered
       then [GenerateContent (model self) (final_prompt self context prompt)]
       else [Ui box "warning" ["⚠️ API busy, using simulation data."]]))%list.

(** [word] occurs in [text], as it is written. *)
Definition occurs (word text : string) : Prop :=
  exists before after, text = before ++ word ++ after.

(** The character [c] occurs in [s]. *)
Fixpoint has_char (c : ascii) (s : string) : bool :=
  match s with
  | EmptyString => false
  | String a s' => Ascii.eqb a c || has_char c s'
  end.

(** Model calls made by one call of [work] in which [failed] attempts
    raised. *)
Definition attempts_made (failed : nat) (answered : bool) : nat :=
  failed + (if answered then 1 else 0).

(** What the model client did during one call of [work] started at [log]
    that returned [text]: the first [failed] attempts raised, and then
    either the next attempt, one of the [max_attempts], answered [text], or
    all [max_attempts] attempts had raised and [text] is the canned one. *)
Definition attempt_facts (client : ModelClient) (self : Agent) (context prompt : string)
  (log : list event) (text : option string) (failed : nat) (answered : bool) : Prop :=
  (forall j, j < failed ->
     client (gen_calls log + j) (model self) (final_prompt self context prompt) = None) /\
  (if answered
   then failed < max_attempts /\
        client (gen_calls log + failed) (model self) (final_prompt self context prompt)
        = Some text
   else failed = max_attempts /\ text = Some (simulated (name self))).

(** The outcome of the analysis as the outcome of the whole script. *)
Definition lift_report (run : result report * list event)
  : result (option report) * list event :=
  match run with
  | (Val rep, log) => (Val (Some rep), log)
  | (Exc e, log) => (Exc e, log)
  end.

(** No event of the list is a call of the market data provider or of the
    model. *)
Definition quiet (events : list event) : Prop :=
  existsb is_provider_call events = false.

(** How the run of the three agents ends once the supervisor has returned
    [c]: with the report, or, for a supervisor result without text, with
    the exception of [res_c.upper()]. *)
Definition run_outcome (price news : string) (a b c : option string) : result report :=
  match c with
  | Some text => Val (mkReport price news a b c (classify text))
  | None => Exc AttributeError
  end.

(** The banner of a label on a text, as the source writes it. *)
Definition banner_of (label : Signal) (text : string) : event :=
  match label with
  | BUY => Ui "container" "success" ["### 🟢 BUY SIGNAL" ++ Py.nl ++ Py.nl ++ text]
  | SELL => Ui "container" "error" ["### 🔴 SELL SIGNAL" ++ Py.nl ++ Py.nl ++ text]
  | HOLD => Ui "container" "warning" ["### 🟡 HOLD SIGNAL" ++ Py.nl ++ Py.nl ++ text]
  end.

(** What the banner selection shows for a text: the banner of its label,
    and the balloons after a BUY banner. *)
Definition banner_events (text : string) : list event :=
  banner_of (classify text) text
  :: match classify text with
     | BUY => [Ui "st" "balloons" []]
     | _ => []
     end.


(** ** Sample environments *)

Module Sample.

(** Whole prices; the formats print fixed texts. *)
Definition fmt (x : nat) : string := "130.00".
Definition fmt_signed (x : nat) : string := "+2.00".

Definition nvda_history (symbol : string) : option (history_frame nat) :=
  if String.eqb symbol "NVDA" then Some (FrameLast 130 127)
  else if String.eqb symbol "ZZZINVALID" then Some FrameEmpty
  else None.

Definition nvda_news (symbol : string) : option (list news_item) :=
  if String.eqb symbol "NVDA"
  then Some [[("title", "Chip demand grows")]; [("publisher", "Wire")];
             [("title", "Earnings next week")]; [("title", "Fourth item")]]
  else None.

Definition failing_client : ModelClient := fun _ _ _ => None.

(** Every call answers with a response that has no text. *)
Definition textless_client : ModelClient := fun _ _ _ => Some None.

Definition empty_client : ModelClient := fun _ _ _ => Some (Some EmptyString).

Definition buying_client : ModelClient := fun _ _ _ => Some (Some "BUY: strong momentum").

(** Fails once, then answers. *)
Definition flaky_client : ModelClient :=
  fun n _ _ => if Nat.even n then None else Some (Some "Hold for now.").

Definition all_fail : Env nat := mkEnv failing_client nvda_history nvda_news.

Definition textless : Env nat := mkEnv textless_client nvda_history nvda_news.

Definition no_news : Env nat := mkEnv buying_client nvda_history (fun _ => None).

Definition run (env : Env nat) (ticker : string) : result report * list event :=
  run_analysis Nat.sub Nat.div Nat.mul 100 fmt fmt_signed env ticker [].

Definition price (env : Env nat) (ticker : string) : result (option string) :=
  fst (get_stock_price Nat.sub Nat.div Nat.mul 100 fmt fmt_signed env ticker []).

End Sample.

(** ** Sample sessions *)

Module SampleRun.

(** The supervisor's calls raise, the other calls answer. *)
Definition supervisor_down_client : ModelClient :=
  fun _ _ contents =>
    if String.prefix "You are a Chief Investment Officer." contents then None
    else Some (Some "SELL: weak outlook").

Definition supervisor_down : Env nat :=
  mkEnv supervisor_down_client Sample.nvda_history Sample.nvda_news.

Definition describe (e : exn) : string :=
  match e with
  | ApiError => "API key not valid"
  | ProviderError => "not found"
  | IndexError => "list index out of range"
  | AttributeError => "'NoneType' object has no attribute 'upper'"
  | StopScript => EmptyString
  end.

(** A key in the secrets, another one typed; the analysis is asked for. *)
Definition with_secret : Session :=
  mkSession (Val tt) (Val (Some "secret-key")) "typed-key" EmptyString false
    (fun _ => Val tt) "NVDA" true describe.

(** No banner file, no secrets, a typed key, a subscription. *)
Definition with_typed_key : Session :=
  mkSession (Exc ProviderError) (Exc ProviderError) "typed-key" "me@example.org" true
    (fun _ => Val tt) "NVDA" true describe.

(** No key at all. *)
Definition without_key : Session :=
  mkSession (Exc ProviderError) (Val None) EmptyString "me@example.org" true
    (fun _ => Val tt) "NVDA" true describe.

(** The client cannot be built. *)
Definition with_bad_key : Session :=
  mkSession (Val tt) (Val (Some "secret-key")) EmptyString EmptyString false
    (fun _ => Exc ApiError) "NVDA" true describe.

Definition run (env : Env nat) (session : Session) : result (option report) * list event :=
  script Nat.sub Nat.div Nat.mul 100 Sample.fmt Sample.fmt_signed env session [].

End SampleRun.

(** * Properties *)

Unset Implicit Arguments.

(** ** Strings *)







Lemma prefix_app (p s : string) :
  String.prefix p s = true <-> exists rest, s = p ++ rest.
Proof.
  revert s. induction p as [|c p IH]; intros s.
  - split; [intros _; now exists s | intros _; now destruct s].
  - destruct s as [|d s]; simpl.
    + split; [discriminate | intros [r H]; discriminate].
    + destruct (ascii_dec c d) as [->|Hcd].
      * rewrite IH. split; intros [r H]; exists r; [now rewrite H | now injection H].
      * split; [discriminate|]. intros [r H]. injection H as H1 _. congruence.
Qed.

Lemma contains_app (sub s : string) :
  Py.contains sub s = true <-> exists before after, s = before ++ sub ++ after.
Proof.
  induction s as [|c s IH]; cbn [Py.contains].
  - destruct (String.prefix sub EmptyString) eqn:Hp.
    + apply prefix_app in Hp as [r Hr].
      split; [intros _; now exists EmptyString, r | reflexivity].
    + split; [discriminate|]. intros ([|d b] & a & H); simpl in H; [|discriminate].
      assert (String.prefix sub EmptyString = true) by (apply prefix_app; eauto).
      congruence.
  - destruct (String.prefix sub (String c s)) eqn:Hp.
    + apply prefix_app in Hp as [r Hr].
      split; [intros _; now exists EmptyString, r | reflexivity].
    + rewrite IH. split.
      * intros (b & a & ->). now exists (String c b), a.
      * intros ([|d b] & a & H); simpl in H.
        -- assert (String.prefix sub (String c s) = true) by (apply prefix_app; eauto).
           congruence.
        -- injection H as _ H. eauto.
Qed.


(** ** Upper casing and the ASCII range *)

Lemma string_app_assoc (s t u : string) : (s ++ t) ++ u = s ++ (t ++ u).
Proof.
  induction s as [|c s IH]; simpl; [reflexivity|]. now rewrite IH.
Qed.








(** What the banner selection does on a text: the banner of the label of
    the text, with balloons for BUY. *)
Lemma decision_banner_shows (text : string) (log : list event) :
  decision_banner (Some text) log
  = (Val (classify text),
     (log ++ banner_of (classify text) text
             :: match classify text with
                | BUY => [Ui "st" "balloons" []]
                | _ => []
                end)%list).
Proof.
  unfold decision_banner, classify.
  destruct (Py.contains "BUY" (Py.upper text)).
  - cbv [bind ui emit ret banner_of]. now rewrite <- app_assoc.
  - destruct (Py.contains "SELL" (Py.upper text)); reflexivity.
Qed.




Lemma split_not_nil (c : ascii) (s : string) : Py.split c s <> [].
Proof.
  destruct s as [|a s]; simpl; [discriminate|].
  destruct (Ascii.eqb a c); [discriminate|].
  destruct (Py.split c s); discriminate.
Qed.

(** A text in which the separator occurs splits into at least two parts. *)
Lemma split_two_parts (c : ascii) (x y : string) :
  2 <= List.length (Py.split c (x ++ String c y)).
Proof.
  induction x as [|a x IH]; simpl.
  - rewrite Ascii.eqb_refl. simpl.
    pose proof (split_not_nil c y). destruct (Py.split c y); [congruence | simpl; lia].
  - destruct (Ascii.eqb a c); [simpl; lia|].
    destruct (Py.split c (x ++ String c y)); simpl in *; lia.
Qed.

Lemma item_in_range (parts : list string) (i : nat) (log : list event) :
  i < List.length parts ->
  exists s, item parts i log = (Val s, log).
Proof.
  intros H. unfold item.
  destruct (nth_error parts i) as [s|] eqn:E.
  - now exists s.
  - apply nth_error_None in E. lia.
Qed.

Lemma headline_not_empty (n : news_item) : headline n <> EmptyString.
Proof. discriminate. Qed.

Lemma join_not_empty (sep first : string) (rest : list string) :
  first <> EmptyString -> Py.join sep (first :: rest) <> EmptyString.
Proof.
  intros H. unfold Py.join. simpl.
  destruct rest; [exact H|].
  destruct first; [congruence | discriminate].
Qed.

(** ** The monad and the log *)

Local Open Scope list_scope.

Lemma gen_calls_app (l1 l2 : list event) :
  gen_calls (l1 ++ l2) = gen_calls l1 + gen_calls l2.
Proof.
  unfold gen_calls. now rewrite filter_app, length_app.
Qed.

Lemma gen_calls_snoc (l : list event) (ev : event) :
  gen_calls (l ++ [ev]) = gen_calls l + (if is_generate ev then 1 else 0).
Proof.
  rewrite gen_calls_app. f_equal. unfold gen_calls. simpl. now destruct (is_generate ev).
Qed.

Lemma gen_calls_cons (l : list event) (ev : event) :
  gen_calls (ev :: l) = (if is_generate ev then 1 else 0) + gen_calls l.
Proof.
  unfold gen_calls. simpl. now destruct (is_generate ev).
Qed.

Lemma gen_calls_failed_attempts (n : nat) (model contents : string) :
  gen_calls (failed_attempts n model contents) = n.
Proof.
  induction n as [|n IH]; [reflexivity|].
  change (S (gen_calls (failed_attempts n model contents)) = S n). now rewrite IH.
Qed.

Lemma bind_val {A B} (m : M A) (k : A -> M B) (log log' : list event) (a : A) :
  m log = (Val a, log') -> bind m k log = k a log'.
Proof. intros H. unfold bind. now rewrite H. Qed.

Lemma bind_exc {A B} (m : M A) (k : A -> M B) (log log' : list event) (e : exn) :
  m log = (Exc e, log') -> bind m k log = (Exc e, log').
Proof. intros H. unfold bind. now rewrite H. Qed.

Lemma bind_ui {B} (target method : string) (args : list string) (k : unit -> M B)
  (log : list event) :
  bind (ui target method args) k log = k tt (log ++ [Ui target method args]).
Proof. reflexivity. Qed.

(** ** Agent.work *)

(** The loop always ends normally.  It ends with [None] after [n] failed
    attempts exactly when the [n] calls all raised, and with [Some text]
    at the first call that answered, [text] being that answer. *)
Lemma attempt_loop_run (client : ModelClient) (model contents : string) (n : nat) :
  forall log,
  exists r extra,
    attempt_loop client n model contents log = (Val r, log ++ extra) /\
    match r with
    | None =>
        extra = failed_attempts n model contents /\
        forall k, k < n -> client (gen_calls log + k) model contents = None
    | Some text =>
        exists k, k < n /\
          extra = failed_attempts k model contents ++ [GenerateContent model contents] /\
          client (gen_calls log + k) model contents = Some text /\
          forall j, j < k -> client (gen_calls log + j) model contents = None
    end.
Proof.
  induction n as [|n IH]; intros log.
  - exists None, []. simpl. rewrite app_nil_r. repeat split. intros k Hk. lia.
  - cbn [attempt_loop]. unfold try_except, bind at 1, generate_content.
    destruct (client (gen_calls log) model contents) as [text|] eqn:E.
    + exists (Some text), [GenerateContent model contents]. split; [reflexivity|].
      exists 0. rewrite Nat.add_0_r. repeat split; [lia | exact E | intros j Hj; lia].
    + cbn [is_Exception]. unfold time_sleep, emit, bind.
      destruct (IH ((log ++ [GenerateContent model contents]) ++ [Sleep 2]))
        as (r & extra & Hrun & Hr).
      assert (Hc : gen_calls ((log ++ [GenerateContent model contents]) ++ [Sleep 2])
                   = S (gen_calls log))
        by (rewrite !gen_calls_snoc; simpl; lia).
      rewrite Hc in Hr.
      exists r, (GenerateContent model contents :: Sleep 2 :: extra).
      split.
      * rewrite Hrun. f_equal. now rewrite <- !app_assoc.
      * destruct r as [text|].
        -- destruct Hr as (k & Hk & -> & Hok & Hfail).
           exists (S k). repeat split; [lia | | ].
           ++ now rewrite Nat.add_succ_r.
           ++ intros [|j] Hj; [now rewrite Nat.add_0_r|].
              rewrite Nat.add_succ_r. apply Hfail. lia.
        -- destruct Hr as (-> & Hfail). split; [reflexivity|].
           intros [|k] Hk; [now rewrite Nat.add_0_r|].
           rewrite Nat.add_succ_r. apply Hfail. lia.
Qed.

(** One call of [work]: it returns a result, after one or two model calls
    with the agent's prompt.  The result is the canned text for the agent's
    name when both calls raised, and otherwise the answer of the first call
    that did not raise, a text or no text. *)
Lemma work_run (client : ModelClient) (self : Agent) (context prompt box : string)
  (log : list event) :
  exists text extra,
    work client self context prompt box log = (Val text, log ++ extra) /\
    In (GenerateContent (model self) (final_prompt self context prompt)) extra /\
    1 <= gen_calls extra <= max_attempts /\
    ((text = Some (simulated (name self)) /\
      gen_calls extra = max_attempts /\
      forall k, k < max_attempts ->
        client (gen_calls log + k) (model self) (final_prompt self context prompt) = None)
     \/
     (exists k, k < max_attempts /\
        gen_calls extra = S k /\
        client (gen_calls log + k) (model self) (final_prompt self context prompt)
        = Some text)).
Proof.
  unfold work. rewrite bind_ui.
  set (status := Ui box "text" _).
  destruct (attempt_loop_run client (model self) (final_prompt self context prompt)
              max_attempts (log ++ [status])) as (r & extra & Hrun & Hr).
  assert (Hc : gen_calls (log ++ [status]) = gen_calls log)
    by (rewrite gen_calls_snoc; simpl; lia).
  rewrite Hc in Hr. rewrite (bind_val _ _ _ _ _ Hrun).
  destruct r as [text|].
  - destruct Hr as (k & Hk & -> & Hok & _).
    exists text, (status :: failed_attempts k (model self) (final_prompt self context prompt)
                    ++ [GenerateContent (model self) (final_prompt self context prompt)]).
    assert (Hn : gen_calls (status :: failed_attempts k (model self)
                              (final_prompt self context prompt)
                            ++ [GenerateContent (model self)
                                  (final_prompt self context prompt)]) = S k).
    { rewrite gen_calls_cons, gen_calls_snoc, gen_calls_failed_attempts.
      unfold status. simpl. lia. }
    split; [unfold ret; now rewrite <- app_assoc|].
    split; [right; apply in_or_app; right; now left|].
    split; [rewrite Hn; lia|].
    right. exists k. auto.
  - destruct Hr as (-> & Hfail).
    rewrite bind_ui. set (warning := Ui box "warning" _).
    exists (Some (simulated (name self))),
      (status :: failed_attempts max_attempts (model self)
                   (final_prompt self context prompt) ++ [warning]).
    assert (Hn : gen_calls (status :: failed_attempts max_attempts (model self)
                              (final_prompt self context prompt) ++ [warning])
                 = max_attempts).
    { rewrite gen_calls_cons, gen_calls_snoc, gen_calls_failed_attempts.
      unfold status, warning, max_attempts. simpl. lia. }
    split; [unfold ret; now rewrite <- !app_assoc|].
    split; [right; now left|].
    split; [rewrite Hn; unfold max_attempts; lia|].
    left. auto.
Qed.


(** C3.  Whatever the model client does, [work] ends normally with a
    result and never with an exception; it calls the model at least once and
    at most [max_attempts] times, which is 2; and when all [max_attempts]
    calls raise, it has made exactly that many calls and returns the canned
    text selected by the agent's name. *)
Theorem work_bounded_attempts_then_fallback :
  forall (client : ModelClient) (self : Agent) (context prompt box : string)
    (log : list event),
  exists text log',
    work client self context prompt box log = (Val text, log') /\
    max_attempts = 2 /\
    gen_calls log + 1 <= gen_calls log' <= gen_calls log + max_attempts /\
    ((forall k, k < max_attempts ->
        client (gen_calls log + k) (model self) (final_prompt self context prompt) = None) ->
     text = Some (simulated (name self)) /\ gen_calls log' = gen_calls log + max_attempts).
Proof.
  intros client self context prompt box log.
  destruct (work_run client self context prompt box log)
    as (text & extra & Hrun & _ & Hcalls & Hcases).
  exists text, (log ++ extra). rewrite gen_calls_app.
  split; [exact Hrun|]. split; [reflexivity|]. split; [lia|].
  intros Hfail. destruct Hcases as [(-> & Hn & _) | (k & Hk & _ & Hok)].
  - split; [reflexivity | lia].
  - rewrite (Hfail k Hk) in Hok. discriminate.
Qed.




(** When every model call raises, [work] returns the canned text selected
    by the agent's name. *)
Lemma work_all_fail (client : ModelClient) (self : Agent) (context prompt box : string)
  (log log' : list event) (text : option string) :
  (forall n model contents, client n model contents = None) ->
  work client self context prompt box log = (Val text, log') ->
  text = Some (simulated (name self)).
Proof.
  intros Hfail Hrun.
  destruct (work_run client self context prompt box log)
    as (text' & extra & Hrun' & _ & _ & Hcases).
  rewrite Hrun in Hrun'. injection Hrun' as -> _.
  destruct Hcases as [(-> & _) | (k & _ & _ & Hok)]; [reflexivity|].
  rewrite Hfail in Hok. discriminate.
Qed.

(** The markers that select a canned text, on names that carry them. *)
Lemma simulated_by_marker :
  simulated "Technical Analyst" = SIM_TECHNICAL /\
  simulated "News Desk" = SIM_NEWS /\
  simulated "Supervisor" = SIM_DECISION.
Proof. repeat split. Qed.

(** ** The market data helpers *)

Section PipelineFacts.

Context {F : Type} (fsub fdiv fmul : F -> F -> F) (hundred : F)
  (fmt_2f fmt_signed_2f : F -> string).

Local Abbreviation stock_price :=
  (get_stock_price fsub fdiv fmul hundred fmt_2f fmt_signed_2f).
Local Abbreviation analysis :=
  (run_analysis fsub fdiv fmul hundred fmt_2f fmt_signed_2f).

(** [get_stock_price] never raises and asks the provider once.  Its value
    does not depend on the log; when it is a text, the text is not empty
    and splits at "(" into at least two parts. *)
Lemma get_stock_price_run (env : Env F) (symbol : string) :
  exists price,
    (forall log, stock_price env symbol log = (Val price, log ++ [YfHistory symbol])) /\
    (yf_history env symbol = None -> price = None) /\
    (yf_history env symbol = Some FrameEmpty -> price = None) /\
    match price with
    | Some text => Py.truthy text = true /\ 2 <= List.length (Py.split "(" text)
    | None => True
    end.
Proof.
  unfold get_stock_price, try_except, bind, ticker_history.
  destruct (yf_history env symbol) as [[|current open_p]|].
  - exists None. repeat split; reflexivity.
  - eexists (Some _). split; [intros log; reflexivity|].
    split; [discriminate|]. split; [discriminate|].
    split; [reflexivity|].
    set (change := fmul _ _).
    replace ("$" ++ fmt_2f current ++ " (" ++ fmt_signed_2f change ++ "%)")%string
      with (("$" ++ fmt_2f current ++ " ") ++ String "(" (fmt_signed_2f change ++ "%)"))%string.
    + apply split_two_parts.
    + simpl. now rewrite string_app_assoc.
  - exists None. repeat split; reflexivity.
Qed.

Lemma stock_price_any_log (env : Env F) (symbol : string) (log0 log : list event)
  (price : option string) :
  fst (stock_price env symbol log0) = Val price ->
  stock_price env symbol log = (Val price, log ++ [YfHistory symbol]).
Proof.
  destruct (get_stock_price_run env symbol) as (p & Hrun & _).
  rewrite (Hrun log0), (Hrun log). simpl. now intros [= ->].
Qed.

(** [get_market_news] never raises and asks the provider once; its value
    does not depend on the log. *)
Lemma get_market_news_run (env : Env F) (symbol : string) :
  exists text,
    (forall log, get_market_news env symbol log = (Val text, log ++ [YfNews symbol])) /\
    text <> EmptyString /\
    match yf_news env symbol with
    | None => text = "Error fetching news."
    | Some [] => text = "No specific news found."
    | Some news =>
        text = Py.join Py.nl (map headline (firstn 3 news)) /\
        1 <= List.length (firstn 3 news) <= 3
    end.
Proof.
  unfold get_market_news, try_except, bind, ticker_news.
  destruct (yf_news env symbol) as [[|n news]|].
  - eexists. split; [intros log; reflexivity|]. split; [discriminate | reflexivity].
  - eexists. split; [intros log; reflexivity|]. split.
    + apply join_not_empty, headline_not_empty.
    + split; [reflexivity|].
      pose proof (firstn_le_length 3 (n :: news)). simpl in *.
      split; [lia|]. destruct news as [|? [|? ?]]; simpl; lia.
  - eexists. split; [intros log; reflexivity|]. split; [discriminate | reflexivity].
Qed.

(** ** The "Run Analysis" block *)

Lemma wp_val {A B} (P : result B * list event -> Prop) (m : M A) (k : A -> M B)
  (log log' : list event) (a : A) :
  m log = (Val a, log') -> P (k a log') -> P (bind m k log).
Proof. intros H HP. now rewrite (bind_val _ _ _ _ _ H). Qed.

Lemma wp_ui {B} (P : result B * list event -> Prop) (target method : string)
  (args : list string) (k : unit -> M B) (log : list event) :
  P (k tt (log ++ [Ui target method args])) -> P (bind (ui target method args) k log).
Proof. now rewrite bind_ui. Qed.

Lemma wp_work {B} (P : result B * list event -> Prop) (client : ModelClient)
  (self : Agent) (context prompt box : string) (k : option string -> M B) (log : list event) :
  (forall text log',
     work client self context prompt box log = (Val text, log') ->
     (exists extra, log' = log ++ extra) ->
     P (k text log')) ->
  P (bind (work client self context prompt box) k log).
Proof.
  intros H.
  destruct (work_run client self context prompt box log) as (text & extra & Hrun & _).
  rewrite (bind_val _ _ _ _ _ Hrun). apply H; eauto.
Qed.

(** The model call of a call of [work] is in its log. *)
Lemma work_calls_model (client : ModelClient) (self : Agent) (context prompt box : string)
  (log log' : list event) (text : option string) :
  work client self context prompt box log = (Val text, log') ->
  In (GenerateContent (model self) (final_prompt self context prompt)) log'.
Proof.
  intros Hrun.
  destruct (work_run client self context prompt box log) as (t & extra & Hrun' & Hin & _).
  rewrite Hrun in Hrun'. injection Hrun' as _ ->. apply in_or_app. now right.
Qed.

(** A call of [work] returns no text only if a model call answered without
    text. *)
Lemma work_without_text (client : ModelClient) (self : Agent) (context prompt box : string)
  (log log' : list event) :
  work client self context prompt box log = (Val None, log') ->
  exists k, k < max_attempts /\
    client (gen_calls log + k) (model self) (final_prompt self context prompt) = Some None.
Proof.
  intros Hrun.
  destruct (work_run client self context prompt box log)
    as (t & extra & Hrun' & _ & _ & Hcases).
  rewrite Hrun in Hrun'. injection Hrun' as <- _.
  destruct Hcases as [(H & _) | (k & Hk & _ & Hok)]; [discriminate | eauto].
Qed.

Ltac wp_step :=
  cbv beta;
  lazymatch goal with
  | |- ?P (bind (ui ?t ?m ?a) ?k ?l) => apply (wp_ui P t m a k l)
  | |- ?P (bind (work ?c ?s ?x ?p ?b) ?k ?l) =>
      apply (wp_work P c s x p b k l); intros ? ? ? ?
  end.

(** Once the price text is known to split at "(", the three agents run
    one after the other: [a], [b] and [c] are the values returned by the
    three calls of [work], the third one made on [final_context a b].  The
    block ends with the report and the banner of the label of [c], or, when
    [c] is no text, with the exception of the banner selection.  The logs of
    the three calls are parts of the final log, which extends the initial
    one. *)
Lemma run_agents_run (env : Env F) (ticker price news : string) (log : list event) :
  2 <= List.length (Py.split "(" price) ->
  exists a b c la la' lb lb' lc lc' rest,
    work (client env) agent_a price ("Analyze " ++ ticker) "status_a" la = (Val a, la') /\
    work (client env) agent_b news ("Analyze sentiment for " ++ ticker) "status_b" lb
    = (Val b, lb') /\
    work (client env) agent_c (final_context a b) "Write a final email decision."
      "status_c" lc = (Val c, lc') /\
    run_agents env ticker price news log = (run_outcome price news a b c, lc' ++ rest) /\
    (forall text, c = Some text -> In (banner_of (classify text) text) rest) /\
    (exists new, lc' ++ rest = log ++ new) /\
    (exists after, lc' ++ rest = la' ++ after) /\
    (exists after, lc' ++ rest = lb' ++ after).
Proof.
  intros Hparts.
  destruct (item_in_range (Py.split "(" price) 0 log) as [value Hvalue]; [lia|].
  destruct (item_in_range (Py.split "(" price) 1 log) as [part Hpart]; [lia|].
  set (P := fun r : result report * list event =>
    exists a b c la la' lb lb' lc lc' rest,
      work (client env) agent_a price ("Analyze " ++ ticker) "status_a" la = (Val a, la') /\
      work (client env) agent_b news ("Analyze sentiment for " ++ ticker) "status_b" lb
      = (Val b, lb') /\
      work (client env) agent_c (final_context a b) "Write a final email decision."
        "status_c" lc = (Val c, lc') /\
      r = (run_outcome price news a b c, lc' ++ rest) /\
      (forall text, c = Some text -> In (banner_of (classify text) text) rest) /\
      (exists new, lc' ++ rest = log ++ new) /\
      (exists after, lc' ++ rest = la' ++ after) /\
      (exists after, lc' ++ rest = lb' ++ after)).
  change (P (run_agents env ticker price news log)).
  unfold run_agents.
  apply (wp_val P _ _ _ _ _ Hvalue). apply (wp_val P _ _ _ _ _ Hpart).
  repeat wp_step. cbv beta.
  match goal with
  | |- P (bind (decision_banner ?c) _ ?l) => destruct c as [final|]
  end.
  - match goal with
    | |- P (bind (decision_banner _) _ ?l) =>
        apply (wp_val P _ _ _ _ _ (decision_banner_shows final l))
    end.
    unfold P, ret, run_outcome.
    do 9 eexists. eexists ?[rest].
    repeat (split; [eassumption|]).
    split; [f_equal; rewrite <- !app_assoc; reflexivity|].
    split.
    { intros shown [= <-]. rewrite !in_app_iff. cbn [In]. tauto. }
    repeat match goal with
           | H : exists extra, _ = _ ++ extra |- _ => destruct H as [? ->]
           end.
    repeat split; eexists; rewrite <- !app_assoc; reflexivity.
  - unfold P, decision_banner, raise, bind, run_outcome.
    do 9 eexists. eexists ?[rest].
    repeat (split; [eassumption|]).
    split; [f_equal; rewrite <- !app_assoc; reflexivity|].
    split; [discriminate|].
    repeat match goal with
           | H : exists extra, _ = _ ++ extra |- _ => destruct H as [? ->]
           end.
    repeat split; eexists; rewrite <- !app_assoc; reflexivity.
Qed.

(** The run for a symbol without price: the divider and the spinner are
    shown, both providers are asked, the error is shown and the script
    stops. *)
Lemma run_analysis_absent (env : Env F) (ticker : string) (log0 log : list event) :
  fst (stock_price env ticker log0) = Val None ->
  analysis env ticker log
  = (Exc StopScript,
     log ++
     [Ui "st" "divider" [];
      Ui "st" "spinner" [("📡 Connecting to Market Data for " ++ ticker ++ "...")%string];
      YfHistory ticker;
      YfNews ticker;
      Ui "st" "error"
        [("❌ Could not find data for " ++ ticker ++ ". Please check the symbol.")%string];
      Ui "st" "stop" []]).
Proof.
  intros Hprice. unfold run_analysis. rewrite !bind_ui.
  rewrite (bind_val _ _ _ _ _ (stock_price_any_log env ticker log0 _ None Hprice)).
  destruct (get_market_news_run env ticker) as (news & Hnews & _).
  rewrite (bind_val _ _ _ _ _ (Hnews _)).
  rewrite bind_ui. unfold st_stop. now rewrite <- !app_assoc.
Qed.

(** The run for a symbol with a price: the price, the news text of
    [get_market_news] and the work of the three agents, ending as
    [run_outcome] says. *)
Lemma run_analysis_present (env : Env F) (ticker price : string) (log0 log : list event) :
  fst (stock_price env ticker log0) = Val (Some price) ->
  exists news a b c la la' lb lb' lc lc' log',
    (forall l, get_market_news env ticker l = (Val news, l ++ [YfNews ticker])) /\
    work (client env) agent_a price ("Analyze " ++ ticker) "status_a" la = (Val a, la') /\
    work (client env) agent_b news ("Analyze sentiment for " ++ ticker) "status_b" lb
    = (Val b, lb') /\
    work (client env) agent_c (final_context a b) "Write a final email decision."
      "status_c" lc = (Val c, lc') /\
    analysis env ticker log = (run_outcome price news a b c, log') /\
    (forall text, c = Some text -> In (banner_of (classify text) text) log') /\
    (exists new,
       log' =
       log ++
       [Ui "st" "divider" [];
        Ui "st" "spinner" [("📡 Connecting to Market Data for " ++ ticker ++ "...")%string];
        YfHistory ticker;
        YfNews ticker] ++ new) /\
    (exists after, log' = la' ++ after) /\
    (exists after, log' = lb' ++ after) /\
    (exists after, log' = lc' ++ after).
Proof.
  intros Hprice.
  destruct (get_stock_price_run env ticker) as (p & Hrun & _ & _ & Hp).
  assert (p = Some price) as -> by (rewrite (Hrun log0) in Hprice; now injection Hprice).
  destruct Hp as (Htruthy & Hparts).
  destruct (get_market_news_run env ticker) as (news & Hnews & _).
  unfold run_analysis. rewrite !bind_ui.
  rewrite (bind_val _ _ _ _ _ (Hrun _)), (bind_val _ _ _ _ _ (Hnews _)), Htruthy.
  match goal with
  | |- context [run_agents env ticker price news ?l] =>
      destruct (run_agents_run env ticker price news l Hparts)
        as (a & b & c & la & la' & lb & lb' & lc & lc' & rest & Ha & Hb & Hc & Hrun'
            & Hbanner & (new & Hnew) & Hla & Hlb)
  end.
  exists news, a, b, c, la, la', lb, lb', lc, lc', (lc' ++ rest).
  repeat (split; [assumption|]).
  split; [intros text Hc'; apply in_or_app; right; now apply Hbanner|].
  split; [exists new; rewrite Hnew; now rewrite <- !app_assoc|].
  split; [exact Hla|]. split; [exact Hlb | eauto].
Qed.

(** ** The claims about the run *)

(** C1, as the code has it.  In a run for a symbol with a price where every
    model call raises, all three agents return the generic decision text:
    the names "Quant", "Journalist" and "CIO" of the three agents carry
    neither the marker "Technical" nor the marker "News".  The technical
    agent does not get the canned technical text, nor the news agent the
    canned sentiment text. *)
Theorem all_fail_run_uses_generic_text :
  forall (env : Env F) (ticker price : string) (log0 log : list event),
    (forall n model contents, client env n model contents = None) ->
    fst (stock_price env ticker log0) = Val (Some price) ->
    exists rep log',
      analysis env ticker log = (Val rep, log') /\
      res_a rep = Some SIM_DECISION /\ res_b rep = Some SIM_DECISION /\
      res_c rep = Some SIM_DECISION /\
      signal rep = BUY /\
      res_a rep <> Some SIM_TECHNICAL /\ res_b rep <> Some SIM_NEWS.
Proof.
  intros env ticker price log0 log Hfail Hprice.
  destruct (run_analysis_present env ticker price log0 log Hprice)
    as (news & a & b & c & la & la' & lb & lb' & lc & lc' & log'
        & _ & Ha & Hb & Hc & Hrun & _).
  apply (work_all_fail _ _ _ _ _ _ _ _ Hfail) in Ha, Hb, Hc. subst a b c.
  eexists _, _. split; [exact Hrun|].
  repeat split; discriminate.
Qed.

(** C4.  When [get_stock_price] gives no price for the symbol, the run
    shows the error for the symbol and stops the script; it has made no
    model call, and its only events are the two provider calls and calls on
    [st]: no agent has touched its status box, called the model or slept. *)
Theorem absent_price_stops_before_agents :
  forall (env : Env F) (ticker : string) (log0 log : list event),
    fst (stock_price env ticker log0) = Val None ->
    no_market_data ticker (analysis env ticker log) /\
    gen_calls (snd (analysis env ticker log)) = gen_calls log /\
    exists new,
      snd (analysis env ticker log) = log ++ new /\
      forall ev, In ev new ->
        match ev with
        | GenerateContent _ _ | Sleep _ => False
        | Ui target _ _ => target = "st"%string
        | YfHistory _ | YfNews _ => True
        end.
Proof.
  intros env ticker log0 log Hprice.
  rewrite (run_analysis_absent env ticker log0 log Hprice). cbn [fst snd].
  split; [|split].
  - split; [reflexivity|]. cbn [snd].
    eexists (log ++ [_; _; _; _]). now rewrite <- app_assoc.
  - rewrite gen_calls_app. cbn. lia.
  - eexists. split; [reflexivity|].
    intros ev Hin. cbn in Hin.
    repeat (destruct Hin as [<- | Hin]; [easy|]). destruct Hin.
Qed.


(** C7.  [get_market_news] always returns a text and never raises.  When
    the news provider raises, the text is the fixed "Error fetching news."
    and a run for a symbol with a price goes on with it: the news agent
    works on this text, with its model call in the log, and the run ends
    normally, with this text as its news, unless the supervisor's result is
    no text; it always ends normally when no model call answers without
    text. *)
Theorem news_failure_is_replaced :
  forall (env : Env F) (ticker : string) (log : list event),
    (exists text, get_market_news env ticker log = (Val text, log ++ [YfNews ticker])) /\
    (yf_news env ticker = None ->
     get_market_news env ticker log = (Val "Error fetching news."%string, log ++ [YfNews ticker]) /\
     forall price log0,
       fst (stock_price env ticker log0) = Val (Some price) ->
       exists b out log' lb lb',
         analysis env ticker log = (out, log') /\
         work (client env) agent_b "Error fetching news."
           ("Analyze sentiment for " ++ ticker) "status_b" lb = (Val b, lb') /\
         In (GenerateContent model_name
               (final_prompt agent_b "Error fetching news."
                  ("Analyze sentiment for " ++ ticker))) log' /\
         (forall rep, out = Val rep ->
            news_str rep = "Error fetching news."%string /\ res_b rep = b) /\
         (forall e, out = Exc e ->
            e = AttributeError /\
            exists n context,
              client env n model_name
                (final_prompt agent_c context "Write a final email decision.")
              = Some None) /\
         ((forall n model contents, client env n model contents <> Some None) ->
          exists rep,
            out = Val rep /\
            news_str rep = "Error fetching news."%string /\ res_b rep = b)).
Proof.
  intros env ticker log.
  destruct (get_market_news_run env ticker) as (text & Hnews & _ & Hcase).
  split; [exists text; apply Hnews|].
  intros Hraise. rewrite Hraise in Hcase. subst text.
  split; [apply Hnews|].
  intros price log0 Hprice.
  destruct (run_analysis_present env ticker price log0 log Hprice)
    as (news & a & b & c & la & la' & lb & lb' & lc & lc' & log'
        & Hnews' & _ & Hb & Hc & Hrun & _ & _ & _ & (mb & Hlb) & _).
  assert (news = "Error fetching news."%string) as ->.
  { specialize (Hnews []). rewrite (Hnews' []) in Hnews. now injection Hnews. }
  exists b, (run_outcome price "Error fetching news." a b c), log', lb, lb'.
  split; [exact Hrun|]. split; [exact Hb|].
  split; [rewrite Hlb; apply in_or_app; left; exact (work_calls_model _ _ _ _ _ _ _ _ Hb)|].
  unfold run_outcome. destruct c as [final|].
  - split; [intros rep [= <-]; split; reflexivity|].
    split; [discriminate|]. intros _. eexists. repeat split.
  - destruct (work_without_text _ _ _ _ _ _ _ Hc) as (k & _ & Hk).
    split; [discriminate|].
    split; [intros e [= <-]; split; [reflexivity | eauto]|].
    intros Hno. exfalso. exact (Hno _ _ _ Hk).
Qed.

(** C8.  In a run for a symbol with a price, the supervisor works on
    [final_context] of the technical agent's result and the news agent's
    result, which is "Tech: ", the first text, a line break, "News: " and
    the second text (a result without text being written "None"); a model
    call with the prompt built from that context is in the log of the run,
    which ends with the report of the three results, or, when the
    supervisor's result is no text, with [AttributeError]. *)
Theorem supervisor_context_is_labelled_concatenation :
  forall (env : Env F) (ticker price : string) (log0 log : list event),
    fst (stock_price env ticker log0) = Val (Some price) ->
    exists news a b c log' la la' lb lb' lc lc',
      work (client env) agent_a price ("Analyze " ++ ticker) "status_a" la
      = (Val a, la') /\
      work (client env) agent_b news ("Analyze sentiment for " ++ ticker)
        "status_b" lb = (Val b, lb') /\
      work (client env) agent_c (final_context a b)
        "Write a final email decision." "status_c" lc = (Val c, lc') /\
      final_context a b
      = ("Tech: " ++ Py.format_opt a ++ Py.nl ++ "News: " ++ Py.format_opt b)%string /\
      (forall tech sentiment,
         final_context (Some tech) (Some sentiment)
         = ("Tech: " ++ tech ++ Py.nl ++ "News: " ++ sentiment)%string) /\
      In (GenerateContent model_name
            (final_prompt agent_c (final_context a b)
               "Write a final email decision.")) log' /\
      match c with
      | Some text =>
          analysis env ticker log = (Val (mkReport price news a b c (classify text)), log')
      | None => analysis env ticker log = (Exc AttributeError, log')
      end.
Proof.
  intros env ticker price log0 log Hprice.
  destruct (run_analysis_present env ticker price log0 log Hprice)
    as (news & a & b & c & la & la' & lb & lb' & lc & lc' & log'
        & _ & Ha & Hb & Hc & Hrun & _ & _ & _ & _ & (mc & Hlc)).
  exists news, a, b, c, log', la, la', lb, lb', lc, lc'.
  repeat (split; [assumption || reflexivity|]).
  split; [rewrite Hlc; apply in_or_app; left; exact (work_calls_model _ _ _ _ _ _ _ _ Hc)|].
  destruct c; exact Hrun.
Qed.

(** C9.  [get_market_news] returns a text that is never empty: "Error
    fetching news." when the provider raises, "No specific news found." when
    it gives no item, and otherwise one line for each of the first items, at
    most 3 of them, joined by line breaks, the line of an item being "- "
    followed by its title, or "- None" for an item without title.  With one
    item the text is its line, with two items the two lines with a line
    break between them, with three items or more the lines of the first
    three. *)
Theorem market_news_text_not_empty :
  forall (env : Env F) (symbol : string) (log : list event),
  exists text,
    get_market_news env symbol log = (Val text, log ++ [YfNews symbol]) /\
    text <> EmptyString /\
    match yf_news env symbol with
    | None => text = "Error fetching news."%string
    | Some [] => text = "No specific news found."%string
    | Some news =>
        exists lines,
          text = Py.join Py.nl lines /\
          1 <= List.length lines <= 3 /\
          List.length lines = Nat.min 3 (List.length news) /\
          (forall i n, nth_error news i = Some n -> i < 3 ->
             nth_error lines i
             = Some match dict_get "title" n with
                    | Some title => ("- " ++ title)%string
                    | None => "- None"%string
                    end) /\
          match lines with
          | [one] => text = one
          | [one; two] => text = (one ++ Py.nl ++ two)%string
          | [one; two; three] => text = (one ++ Py.nl ++ two ++ Py.nl ++ three)%string
          | _ => False
          end
    end.
Proof.
  intros env symbol log.
  destruct (get_market_news_run env symbol) as (text & Hrun & Hne & Hcase).
  exists text. split; [apply Hrun|]. split; [exact Hne|].
  destruct (yf_news env symbol) as [[|first others]|]; try exact Hcase.
  destruct Hcase as (-> & Hlen).
  exists (map headline (firstn 3 (first :: others))).
  split; [reflexivity|]. rewrite length_map. split; [exact Hlen|].
  split; [apply length_firstn|]. split.
  - intros i n Hn Hi. rewrite nth_error_map, nth_error_firstn.
    apply Nat.ltb_lt in Hi. rewrite Hi, Hn. cbn [option_map]. f_equal.
    unfold headline. now destruct (dict_get "title" n).
  - destruct others as [|second [|third rest]]; reflexivity.
Qed.

(** C10.  Every run asks the news provider right after the price provider
    and before anything else happens.  For a symbol without price the run
    then shows the error and stops: the headlines were fetched all the
    same. *)
Theorem news_fetched_before_price_check :
  forall (env : Env F) (ticker : string) (log : list event),
  exists rest,
    snd (analysis env ticker log) =
    log ++
    [Ui "st" "divider" [];
     Ui "st" "spinner" [("📡 Connecting to Market Data for " ++ ticker ++ "...")%string];
     YfHistory ticker;
     YfNews ticker] ++ rest /\
    (forall log0,
       fst (stock_price env ticker log0) = Val None ->
       fst (analysis env ticker log) = Exc StopScript /\
       rest =
       [Ui "st" "error"
          [("❌ Could not find data for " ++ ticker ++ ". Please check the symbol.")%string];
        Ui "st" "stop" []]).
Proof.
  intros env ticker log.
  destruct (get_stock_price_run env ticker) as (p & Hp & _).
  destruct p as [price|].
  - destruct (run_analysis_present env ticker price log log)
      as (news & a & b & c & la & la' & lb & lb' & lc & lc' & rest
          & _ & _ & _ & _ & Hrun & _ & (new & Hnew) & _); [now rewrite Hp|].
    exists new. rewrite Hrun. cbn [snd]. split; [exact Hnew|].
    intros log0 Hnone. rewrite Hp in Hnone. discriminate.
  - assert (Hnone : fst (stock_price env ticker log) = Val None) by now rewrite Hp.
    rewrite (run_analysis_absent env ticker log log Hnone).
    eexists. split; [reflexivity|]. intros _ _. split; reflexivity.
Qed.

End PipelineFacts.

(** ** The claims on the sample runs *)

Lemma all_fail_run_uses_generic_text_witness :
  exists rep log',
    Sample.run Sample.all_fail "NVDA" = (Val rep, log') /\
    res_a rep = Some SIM_DECISION /\ res_b rep = Some SIM_DECISION /\
    res_c rep = Some SIM_DECISION /\
    signal rep = BUY /\
    res_a rep <> Some SIM_TECHNICAL /\ res_b rep <> Some SIM_NEWS.
Proof.
  apply (all_fail_run_uses_generic_text Nat.sub Nat.div Nat.mul 100 Sample.fmt
           Sample.fmt_signed Sample.all_fail "NVDA" "$130.00 (+2.00%)" [] []).
  - reflexivity.
  - reflexivity.
Defined.

Lemma absent_price_stops_before_agents_witness :
  no_market_data "ZZZINVALID" (Sample.run Sample.all_fail "ZZZINVALID") /\
  gen_calls (snd (Sample.run Sample.all_fail "ZZZINVALID")) = gen_calls [] /\
  exists new,
    snd (Sample.run Sample.all_fail "ZZZINVALID") = [] ++ new /\
    forall ev, In ev new ->
      match ev with
      | GenerateContent _ _ | Sleep _ => False
      | Ui target _ _ => target = "st"%string
      | YfHistory _ | YfNews _ => True
      end.
Proof.
  apply (absent_price_stops_before_agents Nat.sub Nat.div Nat.mul 100 Sample.fmt
           Sample.fmt_signed Sample.all_fail "ZZZINVALID" [] []).
  reflexivity.
Defined.



Lemma news_failure_is_replaced_witness :
  exists rep log' lb lb',
    Sample.run Sample.no_news "NVDA" = (Val rep, log') /\
    news_str rep = "Error fetching news."%string /\
    work Sample.buying_client agent_b "Error fetching news."
      "Analyze sentiment for NVDA" "status_b" lb = (Val (res_b rep), lb').
Proof.
  destruct (proj2 (proj2 (news_failure_is_replaced Nat.sub Nat.div Nat.mul 100 Sample.fmt
                            Sample.fmt_signed Sample.no_news "NVDA" []) eq_refl)
              "$130.00 (+2.00%)"%string [] eq_refl)
    as (b & out & log' & lb & lb' & Hrun & Hb & _ & _ & _ & Hok).
  destruct Hok as (rep & -> & Hnews & <-); [intros n model contents H; discriminate H|].
  exists rep, log', lb, lb'. split; [exact Hrun|]. split; [exact Hnews | exact Hb].
Defined.

Lemma supervisor_context_witness :
  exists news a b c log' la la' lb lb' lc lc',
    work Sample.buying_client agent_a "$130.00 (+2.00%)" "Analyze NVDA" "status_a" la
    = (Val a, la') /\
    work Sample.buying_client agent_b news "Analyze sentiment for NVDA"
      "status_b" lb = (Val b, lb') /\
    work Sample.buying_client agent_c (final_context a b)
      "Write a final email decision." "status_c" lc = (Val c, lc') /\
    final_context a b
    = ("Tech: " ++ Py.format_opt a ++ Py.nl ++ "News: " ++ Py.format_opt b)%string /\
    (forall tech sentiment,
       final_context (Some tech) (Some sentiment)
       = ("Tech: " ++ tech ++ Py.nl ++ "News: " ++ sentiment)%string) /\
    In (GenerateContent model_name
          (final_prompt agent_c (final_context a b)
             "Write a final email decision.")) log' /\
    match c with
    | Some text =>
        Sample.run Sample.no_news "NVDA"
        = (Val (mkReport "$130.00 (+2.00%)" news a b c (classify text)), log')
    | None => Sample.run Sample.no_news "NVDA" = (Exc AttributeError, log')
    end.
Proof.
  apply (supervisor_context_is_labelled_concatenation Nat.sub Nat.div Nat.mul 100
           Sample.fmt Sample.fmt_signed Sample.no_news "NVDA" "$130.00 (+2.00%)" [] []).
  reflexivity.
Defined.

Lemma news_fetched_before_price_check_witness :
  fst (Sample.run Sample.all_fail "ZZZINVALID") = Exc StopScript /\
  snd (Sample.run Sample.all_fail "ZZZINVALID") =
  [Ui "st" "divider" [];
   Ui "st" "spinner" ["📡 Connecting to Market Data for ZZZINVALID..."%string];
   YfHistory "ZZZINVALID";
   YfNews "ZZZINVALID";
   Ui "st" "error" ["❌ Could not find data for ZZZINVALID. Please check the symbol."%string];
   Ui "st" "stop" []].
Proof.
  destruct (news_fetched_before_price_check Nat.sub Nat.div Nat.mul 100 Sample.fmt
              Sample.fmt_signed Sample.all_fail "ZZZINVALID" []) as (rest & Hlog & Hstop).
  destruct (Hstop [] eq_refl) as (Hfst & ->).
  split; [exact Hfst | exact Hlog].
Defined.

(** The sample runs, evaluated. *)
Example all_fail_run_texts :
  match fst (Sample.run Sample.all_fail "NVDA") with
  | Val rep =>
      res_a rep = Some "SIMULATION DECISION: BUY. (API Quota Reached)."%string /\
      res_b rep = Some "SIMULATION DECISION: BUY. (API Quota Reached)."%string /\
      res_c rep = Some "SIMULATION DECISION: BUY. (API Quota Reached)."%string /\
      news_str rep
      = ("- Chip demand grows" ++ Py.nl ++ "- None" ++ Py.nl ++ "- Earnings next week")%string /\
      gen_calls (snd (Sample.run Sample.all_fail "NVDA")) = 6
  | Exc _ => False
  end.
Proof. vm_compute. repeat split. Qed.

(** The run where every answer has no text: three model calls, the two
    reports shown as "None", and the exception of the banner selection once
    the supervisor's box says "Decision Made". *)
Example textless_run :
  fst (Sample.run Sample.textless "NVDA") = Exc AttributeError /\
  gen_calls (snd (Sample.run Sample.textless "NVDA")) = 3 /\
  In (Ui "st" "markdown" ["None"%string]) (snd (Sample.run Sample.textless "NVDA")) /\
  last (snd (Sample.run Sample.textless "NVDA")) (Ui "st" "stop" [])
  = Ui "st" "container" [].
Proof.
  repeat split; try reflexivity.
  vm_compute. repeat (first [left; reflexivity | right]).
Qed.

Example empty_answer_run :
  work Sample.empty_client agent_c "Tech: up" "Write a final email decision." "status_c" []
  = (Val (Some EmptyString),
     [Ui "status_c" "text" ["🔄 CIO is analyzing..."%string];
      GenerateContent "gemini-1.5-flash"
        (final_prompt agent_c "Tech: up" "Write a final email decision.")]).
Proof. reflexivity. Qed.

Example flaky_answer_run :
  fst (work Sample.flaky_client agent_a "$130.00 (+2.00%)" "Analyze NVDA" "status_a" [])
  = Val (Some "Hold for now."%string) /\
  gen_calls (snd (work Sample.flaky_client agent_a "$130.00 (+2.00%)" "Analyze NVDA"
                    "status_a" [])) = 2.
Proof. split; reflexivity. Qed.

(** * Further properties of the code *)

(** ** Agent.work: the events of one call *)

Lemma in_failed_attempts (n : nat) (model contents : string) (ev : event) :
  In ev (failed_attempts n model contents) ->
  ev = GenerateContent model contents \/ ev = Sleep 2.
Proof.
  induction n as [|n IH]; simpl; [tauto|].
  intros [<- | [<- | H]]; auto.
Qed.

Lemma slept_app (l1 l2 : list event) : slept (l1 ++ l2) = slept l1 + slept l2.
Proof.
  induction l1 as [|ev l1 IH]; simpl; [reflexivity|].
  destruct ev; rewrite IH; lia.
Qed.

Lemma slept_failed_attempts (n : nat) (model contents : string) :
  slept (failed_attempts n model contents) = 2 * n.
Proof.
  induction n as [|n IH]; simpl; [reflexivity|]. rewrite IH. lia.
Qed.

Lemma gen_calls_work_events (self : Agent) (context prompt box : string) (failed : nat)
  (answered : bool) :
  gen_calls (work_events self context prompt box failed answered)
  = failed + (if answered then 1 else 0).
Proof.
  unfold work_events.
  rewrite gen_calls_cons, gen_calls_app, gen_calls_failed_attempts.
  destruct answered; reflexivity.
Qed.

Lemma slept_work_events (self : Agent) (context prompt box : string) (failed : nat)
  (answered : bool) :
  slept (work_events self context prompt box failed answered) = 2 * failed.
Proof.
  unfold work_events. cbn [slept].
  rewrite slept_app, slept_failed_attempts. destruct answered; simpl; lia.
Qed.

(** What one call of [work] does, in full: some number of attempts raise,
    each followed by its pause, and then either an attempt answers and its
    text is returned, or [max_attempts] attempts have raised and the canned
    text is returned after the warning. *)
Lemma work_trace (client : ModelClient) (self : Agent) (context prompt box : string)
  (log : list event) :
  exists text failed answered,
    work client self context prompt box log
    = (Val text, log ++ work_events self context prompt box failed answered) /\
    (forall j, j < failed ->
       client (gen_calls log + j) (model self) (final_prompt self context prompt) = None) /\
    (if answered
     then failed < max_attempts /\
          client (gen_calls log + failed) (model self) (final_prompt self context prompt)
          = Some text
     else failed = max_attempts /\ text = Some (simulated (name self))).
Proof.
  unfold work. rewrite bind_ui.
  set (status := Ui box "text" _).
  destruct (attempt_loop_run client (model self) (final_prompt self context prompt)
              max_attempts (log ++ [status])) as (r & extra & Hrun & Hr).
  assert (Hc : gen_calls (log ++ [status]) = gen_calls log)
    by (rewrite gen_calls_snoc; simpl; lia).
  rewrite Hc in Hr. rewrite (bind_val _ _ _ _ _ Hrun).
  destruct r as [text|].
  - destruct Hr as (k & Hk & -> & Hok & Hfail).
    exists text, k, true. unfold work_events, ret. fold status.
    split; [now rewrite <- app_assoc | auto].
  - destruct Hr as (-> & Hfail). rewrite bind_ui.
    exists (Some (simulated (name self))), max_attempts, false. unfold work_events, ret.
    fold status. split; [now rewrite <- !app_assoc | auto].
Qed.

(** X1.  [work] returns the first answer of the model as it is, a text or
    no text: when the first [k] attempts raise and attempt [k] answers, with
    [k] below [max_attempts], the result is that answer, after [k + 1] model
    calls with the same prompt and [k] pauses of 2 seconds; no warning is
    shown and no further call is made. *)
Theorem work_returns_first_answer :
  forall (client : ModelClient) (self : Agent) (context prompt box : string)
    (log : list event) (k : nat) (text : option string),
    k < max_attempts ->
    (forall j, j < k ->
       client (gen_calls log + j) (model self) (final_prompt self context prompt) = None) ->
    client (gen_calls log + k) (model self) (final_prompt self context prompt) = Some text ->
    exists log',
      work client self context prompt box log = (Val text, log') /\
      log' = log ++ work_events self context prompt box k true /\
      gen_calls log' = gen_calls log + k + 1 /\
      slept log' = slept log + 2 * k.
Proof.
  intros client self context prompt box log k text Hk Hfail Hok.
  destruct (work_trace client self context prompt box log)
    as (text' & failed & answered & Hrun & Hfailed & Hlast).
  assert (Hsame : failed = k /\ answered = true /\ text' = text).
  { destruct answered.
    - destruct Hlast as (_ & Hok').
      destruct (Nat.lt_trichotomy failed k) as [Hlt | [-> | Hgt]].
      + rewrite (Hfail _ Hlt) in Hok'. discriminate.
      + rewrite Hok in Hok'. injection Hok' as ->. auto.
      + rewrite (Hfailed _ Hgt) in Hok. discriminate.
    - destruct Hlast as (-> & _). rewrite (Hfailed _ Hk) in Hok. discriminate. }
  destruct Hsame as (-> & -> & ->).
  eexists. split; [exact Hrun|]. split; [reflexivity|].
  rewrite gen_calls_app, slept_app, gen_calls_work_events, slept_work_events.
  split; lia.
Qed.

Lemma work_returns_first_answer_witness :
  exists log',
    work Sample.flaky_client agent_a "$130.00 (+2.00%)" "Analyze NVDA" "status_a" []
    = (Val (Some "Hold for now."%string), log') /\
    log' = [] ++ work_events agent_a "$130.00 (+2.00%)" "Analyze NVDA" "status_a" 1 true /\
    gen_calls log' = gen_calls [] + 1 + 1 /\
    slept log' = slept [] + 2 * 1.
Proof.
  apply (work_returns_first_answer Sample.flaky_client agent_a "$130.00 (+2.00%)"
           "Analyze NVDA" "status_a" [] 1 (Some "Hold for now."%string)).
  - unfold max_attempts. lia.
  - intros j Hj. assert (j = 0) as -> by lia. reflexivity.
  - reflexivity.
Defined.

(** X2.  When [max_attempts] attempts in a row raise, [work] has called the
    model twice with the same prompt and has paused 2 seconds after each
    failure, the last one included: 4 seconds in all, followed by the
    warning on the status box and the canned text for the agent's name. *)
Theorem work_exhausted_events :
  forall (client : ModelClient) (self : Agent) (context prompt box : string)
    (log : list event),
    (forall j, j < max_attempts ->
       client (gen_calls log + j) (model self) (final_prompt self context prompt) = None) ->
    work client self context prompt box log
    = (Val (Some (simulated (name self))),
       log ++
       [Ui box "text" [("🔄 " ++ name self ++ " is analyzing...")%string];
        GenerateContent (model self) (final_prompt self context prompt);
        Sleep 2;
        GenerateContent (model self) (final_prompt self context prompt);
        Sleep 2;
        Ui box "warning" ["⚠️ API busy, using simulation data."%string]]) /\
    slept (snd (work client self context prompt box log)) = slept log + 4.
Proof.
  intros client self context prompt box log Hfail.
  destruct (work_trace client self context prompt box log)
    as (text & failed & answered & Hrun & Hfailed & Hlast).
  destruct answered.
  - destruct Hlast as (Hlt & Hok). rewrite (Hfail _ Hlt) in Hok. discriminate.
  - destruct Hlast as (-> & ->). rewrite Hrun. cbn [snd].
    split; [reflexivity|].
    rewrite slept_app, slept_work_events. unfold max_attempts. lia.
Qed.

Lemma work_exhausted_events_witness :
  work Sample.failing_client agent_c "Tech: up" "Write a final email decision." "status_c" []
  = (Val (Some (simulated (name agent_c))),
     [] ++
     [Ui "status_c" "text" [("🔄 " ++ name agent_c ++ " is analyzing...")%string];
      GenerateContent (model agent_c)
        (final_prompt agent_c "Tech: up" "Write a final email decision.");
      Sleep 2;
      GenerateContent (model agent_c)
        (final_prompt agent_c "Tech: up" "Write a final email decision.");
      Sleep 2;
      Ui "status_c" "warning" ["⚠️ API busy, using simulation data."%string]]) /\
  slept (snd (work Sample.failing_client agent_c "Tech: up" "Write a final email decision."
                "status_c" [])) = slept [] + 4.
Proof.
  apply (work_exhausted_events Sample.failing_client agent_c "Tech: up"
           "Write a final email decision." "status_c" []).
  intros j _. reflexivity.
Defined.

(** X3.  One call of [work] writes to no widget but its own status box,
    calls the model with no prompt but its own, pauses 2 seconds at a time
    and never asks the market data provider.  It shows the warning exactly
    when all [max_attempts] attempts raised. *)
Theorem work_keeps_to_its_status_box :
  forall (client : ModelClient) (self : Agent) (context prompt box : string)
    (log : list event),
  exists text new,
    work client self context prompt box log = (Val text, log ++ new) /\
    (forall ev, In ev new ->
       match ev with
       | Ui target _ _ => target = box
       | GenerateContent m contents =>
           m = model self /\ contents = final_prompt self context prompt
       | Sleep seconds => seconds = 2
       | YfHistory _ | YfNews _ => False
       end) /\
    (In (Ui box "warning" ["⚠️ API busy, using simulation data."%string]) new <->
     forall j, j < max_attempts ->
       client (gen_calls log + j) (model self) (final_prompt self context prompt) = None).
Proof.
  intros client self context prompt box log.
  destruct (work_trace client self context prompt box log)
    as (text & failed & answered & Hrun & Hfailed & Hlast).
  exists text, (work_events self context prompt box failed answered).
  split; [exact Hrun|]. split.
  - intros ev [<- | Hin]; [reflexivity|].
    apply in_app_or in Hin as [Hin | Hin].
    + apply in_failed_attempts in Hin as [-> | ->]; auto.
    + destruct answered; destruct Hin as [<- | []]; auto.
  - unfold work_events. destruct answered.
    + destruct Hlast as (Hlt & Hok). split.
      * intros [Heq | Hin]; [discriminate|].
        apply in_app_or in Hin as [Hin | [Heq | []]]; [|discriminate].
        apply in_failed_attempts in Hin as [Heq | Heq]; discriminate.
      * intros Hall. rewrite (Hall _ Hlt) in Hok. discriminate.
    + destruct Hlast as (-> & _). split; [intros _; exact Hfailed|].
      intros _. right. apply in_or_app. right. now left.
Qed.

Lemma simulated_by_occurrence (agent_name : string) :
  (occurs "Technical" agent_name -> simulated agent_name = SIM_TECHNICAL) /\
  (~ occurs "Technical" agent_name -> occurs "News" agent_name ->
   simulated agent_name = SIM_NEWS) /\
  (~ occurs "Technical" agent_name -> ~ occurs "News" agent_name ->
   simulated agent_name = SIM_DECISION).
Proof.
  unfold simulated.
  pose proof (contains_app "Technical" agent_name) as Ht.
  pose proof (contains_app "News" agent_name) as Hn.
  fold (occurs "Technical" agent_name) in Ht. fold (occurs "News" agent_name) in Hn.
  destruct (Py.contains "Technical" agent_name).
  - assert (occurs "Technical" agent_name) by now apply Ht.
    split; [|split]; intros; first [reflexivity | contradiction].
  - assert (~ occurs "Technical" agent_name) by (intros H; apply Ht in H; discriminate).
    destruct (Py.contains "News" agent_name).
    + assert (occurs "News" agent_name) by now apply Hn.
      split; [|split]; intros; first [reflexivity | contradiction].
    + assert (~ occurs "News" agent_name) by (intros H'; apply Hn in H'; discriminate).
      split; [|split]; intros; first [reflexivity | contradiction].
Qed.

(** X4.  The canned text is selected by what is written in the agent's
    name, with "Technical" tested first: when all attempts raise, an agent
    whose name contains "Technical" gets the technical text (also when the
    name contains "News" as well), one whose name contains "News" and not
    "Technical" gets the sentiment text, and any other agent gets the
    generic decision text. *)
Theorem fallback_text_by_name_marker :
  forall (client : ModelClient) (self : Agent) (context prompt box : string)
    (log : list event),
    (forall j, j < max_attempts ->
       client (gen_calls log + j) (model self) (final_prompt self context prompt) = None) ->
    (occurs "Technical" (name self) ->
     fst (work client self context prompt box log) = Val (Some SIM_TECHNICAL)) /\
    (~ occurs "Technical" (name self) -> occurs "News" (name self) ->
     fst (work client self context prompt box log) = Val (Some SIM_NEWS)) /\
    (~ occurs "Technical" (name self) -> ~ occurs "News" (name self) ->
     fst (work client self context prompt box log) = Val (Some SIM_DECISION)).
Proof.
  intros client self context prompt box log Hfail.
  destruct (work_trace client self context prompt box log)
    as (text & failed & answered & Hrun & Hfailed & Hlast).
  destruct answered.
  - destruct Hlast as (Hlt & Hok). rewrite (Hfail _ Hlt) in Hok. discriminate.
  - destruct Hlast as (_ & ->). rewrite Hrun. cbn [fst].
    destruct (simulated_by_occurrence (name self)) as (Ht & Hn & Hd).
    repeat split; intros; do 2 f_equal; auto.
Qed.

Lemma fallback_text_by_name_marker_witness :
  (occurs "Technical" "News and Technical Desk" ->
   fst (work Sample.failing_client (mkAgent "News and Technical Desk" model_name "Be concise.")
          "$130.00 (+2.00%)" "Analyze NVDA" "status_a" []) = Val (Some SIM_TECHNICAL)) /\
  (~ occurs "Technical" "News and Technical Desk" -> occurs "News" "News and Technical Desk" ->
   fst (work Sample.failing_client (mkAgent "News and Technical Desk" model_name "Be concise.")
          "$130.00 (+2.00%)" "Analyze NVDA" "status_a" []) = Val (Some SIM_NEWS)) /\
  (~ occurs "Technical" "News and Technical Desk" ->
   ~ occurs "News" "News and Technical Desk" ->
   fst (work Sample.failing_client (mkAgent "News and Technical Desk" model_name "Be concise.")
          "$130.00 (+2.00%)" "Analyze NVDA" "status_a" []) = Val (Some SIM_DECISION)).
Proof.
  apply (fallback_text_by_name_marker Sample.failing_client
           (mkAgent "News and Technical Desk" model_name "Be concise.")
           "$130.00 (+2.00%)" "Analyze NVDA" "status_a" []).
  intros j _. reflexivity.
Defined.

(** ** Splitting, joining and stripping *)

Lemma has_char_app (c : ascii) (s t : string) :
  has_char c (s ++ t)%string = has_char c s || has_char c t.
Proof.
  induction s as [|a s IH]; simpl; [reflexivity|]. now rewrite IH, orb_assoc.
Qed.

Lemma split_without_separator (c : ascii) (s : string) :
  has_char c s = false -> Py.split c s = [s].
Proof.
  induction s as [|a s IH]; simpl; [reflexivity|].
  intros H. apply orb_false_iff in H as (Ha & Hs).
  now rewrite Ha, (IH Hs).
Qed.

Lemma split_at_first_separator (c : ascii) (x y : string) :
  has_char c x = false ->
  Py.split c (x ++ String c y)%string = x :: Py.split c y.
Proof.
  induction x as [|a x IH]; simpl.
  - intros _. now rewrite Ascii.eqb_refl.
  - intros H. apply orb_false_iff in H as (Ha & Hx).
    now rewrite Ha, (IH Hx).
Qed.

(** Splitting a joined list at the separator gives the list back, when no
    part holds the separator. *)
Lemma split_join (c : ascii) (first : string) (rest : list string) :
  Forall (fun part => has_char c part = false) (first :: rest) ->
  Py.split c (Py.join (String c EmptyString) (first :: rest)) = first :: rest.
Proof.
  revert first. induction rest as [|second rest IH]; intros first H.
  - apply split_without_separator. now inversion H.
  - inversion H as [|? ? Hfirst Hrest]; subst.
    change (Py.join (String c EmptyString) (first :: second :: rest))
      with (first ++ String c (Py.join (String c EmptyString) (second :: rest)))%string.
    rewrite (split_at_first_separator _ _ _ Hfirst). f_equal. now apply IH.
Qed.

Lemma list_ascii_app (s t : string) :
  list_ascii_of_string (s ++ t)%string = list_ascii_of_string s ++ list_ascii_of_string t.
Proof.
  induction s as [|a s IH]; simpl; [reflexivity|]. now rewrite IH.
Qed.

Lemma string_of_list_app (l m : list ascii) :
  string_of_list_ascii (l ++ m) = (string_of_list_ascii l ++ string_of_list_ascii m)%string.
Proof.
  induction l as [|a l IH]; simpl; [reflexivity|]. now rewrite IH.
Qed.

Lemma rev_string_app (s t : string) :
  Py.rev_string (s ++ t)%string = (Py.rev_string t ++ Py.rev_string s)%string.
Proof.
  unfold Py.rev_string. now rewrite list_ascii_app, rev_app_distr, string_of_list_app.
Qed.

Lemma rev_string_involutive (s : string) : Py.rev_string (Py.rev_string s) = s.
Proof.
  unfold Py.rev_string.
  now rewrite list_ascii_of_string_of_list_ascii, rev_involutive,
    string_of_list_ascii_of_string.
Qed.

(** [(b + "%)").strip(")")] is [b + "%"] when [b] holds no ")". *)
Lemma strip_percent_paren (b : string) :
  has_char ")" b = false -> Py.strip ")" (b ++ "%)")%string = (b ++ "%")%string.
Proof.
  intros Hb. unfold Py.strip.
  assert (Hl : Py.lstrip ")" (b ++ "%)")%string = (b ++ "%)")%string).
  { destruct b as [|a b]; [reflexivity|]. simpl in *.
    apply orb_false_iff in Hb as (Ha & _). now rewrite Ha. }
  rewrite Hl.
  change (b ++ "%)")%string with (b ++ ("%" ++ ")"))%string.
  rewrite <- string_app_assoc, rev_string_app, (rev_string_app b "%").
  change (Py.rev_string ")") with ")"%string.
  change (Py.rev_string "%") with "%"%string.
  change (Py.lstrip ")" (")" ++ "%" ++ Py.rev_string b)%string)
    with ("%" ++ Py.rev_string b)%string.
  rewrite rev_string_app, rev_string_involutive. reflexivity.
Qed.

(** ** The run of the three agents: calls, pauses and order *)

Lemma filter_failed_attempts (n : nat) (model contents : string) :
  filter is_generate (failed_attempts n model contents)
  = repeat (GenerateContent model contents) n.
Proof.
  induction n as [|n IH]; simpl; [reflexivity|]. now rewrite IH.
Qed.

Lemma filter_work_events (self : Agent) (context prompt box : string) (failed : nat)
  (answered : bool) :
  filter is_generate (work_events self context prompt box failed answered)
  = repeat (GenerateContent (model self) (final_prompt self context prompt))
      (attempts_made failed answered).
Proof.
  unfold work_events, attempts_made. cbn [filter is_generate].
  rewrite filter_app, filter_failed_attempts, repeat_app.
  destruct answered; reflexivity.
Qed.

Lemma attempts_made_bounds (client : ModelClient) (self : Agent) (context prompt : string)
  (log : list event) (text : option string) (failed : nat) (answered : bool) :
  attempt_facts client self context prompt log text failed answered ->
  1 <= attempts_made failed answered <= max_attempts /\ failed <= max_attempts.
Proof.
  unfold attempt_facts, attempts_made, max_attempts.
  intros (_ & H). destruct answered; lia.
Qed.

Lemma attempt_facts_all_fail (client : ModelClient) (self : Agent) (context prompt : string)
  (log : list event) (text : option string) (failed : nat) (answered : bool) :
  (forall n model contents, client n model contents = None) ->
  attempt_facts client self context prompt log text failed answered ->
  failed = max_attempts /\ answered = false /\ text = Some (simulated (name self)).
Proof.
  intros Hfail (_ & H). destruct answered.
  - destruct H as (_ & H). rewrite Hfail in H. discriminate.
  - tauto.
Qed.

Lemma attempt_facts_none_fail (client : ModelClient) (self : Agent) (context prompt : string)
  (log : list event) (text : option string) (failed : nat) (answered : bool) :
  (forall n model contents, client n model contents <> None) ->
  attempt_facts client self context prompt log text failed answered ->
  failed = 0 /\ answered = true.
Proof.
  intros Hok (Hfailed & H).
  destruct failed as [|failed].
  - destruct answered; [tauto|]. destruct H as (H & _). discriminate.
  - exfalso. apply (Hok _ _ _ (Hfailed 0 (Nat.lt_0_succ _))).
Qed.

Lemma wp_work_trace {B} (P : result B * list event -> Prop) (client : ModelClient)
  (self : Agent) (context prompt box : string) (k : option string -> M B)
  (log : list event) :
  (forall text failed answered,
     attempt_facts client self context prompt log text failed answered ->
     P (k text (log ++ work_events self context prompt box failed answered))) ->
  P (bind (work client self context prompt box) k log).
Proof.
  intros H.
  destruct (work_trace client self context prompt box log)
    as (text & failed & answered & Hrun & Hfacts).
  rewrite (bind_val _ _ _ _ _ Hrun). now apply H.
Qed.

(** A call of [work] gives no text only after a model call that answered
    without text. *)
Lemma attempt_facts_without_text (client : ModelClient) (self : Agent)
  (context prompt : string) (log : list event) (failed : nat) (answered : bool) :
  attempt_facts client self context prompt log None failed answered ->
  exists n, client n (model self) (final_prompt self context prompt) = Some None.
Proof.
  intros (_ & H). destruct answered.
  - destruct H as (_ & H). eauto.
  - destruct H as (_ & H). discriminate.
Qed.

(** The banner selection makes no model call and does not pause; on a text
    it shows [banner_events], on no text it raises. *)
Lemma decision_banner_quiet (c : option string) (log : list event) :
  exists shown,
    decision_banner c log
    = (match c with Some text => Val (classify text) | None => Exc AttributeError end,
       log ++ shown) /\
    shown = match c with Some text => banner_events text | None => [] end /\
    filter is_generate shown = [] /\ slept shown = 0.
Proof.
  destruct c as [text|].
  - exists (banner_events text). split; [apply decision_banner_shows|].
    split; [reflexivity|]. unfold banner_events, banner_of.
    destruct (classify text); split; reflexivity.
  - exists []. unfold decision_banner, raise. rewrite app_nil_r. repeat split.
Qed.

Lemma bind_outcome {A B} (m : M A) (k : A -> M B) (log log' : list event) (e : exn) :
  m log = (Exc e, log') -> bind m k log = (Exc e, log').
Proof. unfold bind. now intros ->. Qed.

Section RunFacts.

Context {F : Type} (fsub fdiv fmul : F -> F -> F) (hundred : F)
  (fmt_2f fmt_signed_2f : F -> string).

Local Abbreviation stock_price :=
  (get_stock_price fsub fdiv fmul hundred fmt_2f fmt_signed_2f).
Local Abbreviation analysis :=
  (run_analysis fsub fdiv fmul hundred fmt_2f fmt_signed_2f).

Ltac run_step :=
  cbv beta;
  lazymatch goal with
  | |- ?P (bind (ui ?t ?m ?a) ?k ?l) => apply (wp_ui P t m a k l)
  | |- ?P (bind (work ?c ?s ?x ?p ?b) ?k ?l) =>
      apply (wp_work_trace P c s x p b k l); intros ? ? ? ?
  end.

(** The three agents work one after the other; the model calls of the run
    are those of the technical agent, then those of the news agent, then
    those of the supervisor, and the pauses are those after their failed
    attempts.  The run ends as [run_outcome] says, and on a supervisor text
    its last events are the banner events of that text. *)
Lemma run_agents_cost (env : Env F) (ticker price news : string) (log : list event) :
  2 <= List.length (Py.split "(" price) ->
  exists a b c fa fb fc aa ab ac la lb lc log',
    run_agents env ticker price news log = (run_outcome price news a b c, log') /\
    attempt_facts (client env) agent_a price ("Analyze " ++ ticker) la a fa aa /\
    attempt_facts (client env) agent_b news ("Analyze sentiment for " ++ ticker) lb b fb ab /\
    attempt_facts (client env) agent_c (final_context a b) "Write a final email decision."
      lc c fc ac /\
    filter is_generate log'
    = filter is_generate log
      ++ repeat (GenerateContent model_name
                   (final_prompt agent_a price ("Analyze " ++ ticker)))
           (attempts_made fa aa)
      ++ repeat (GenerateContent model_name
                   (final_prompt agent_b news ("Analyze sentiment for " ++ ticker)))
           (attempts_made fb ab)
      ++ repeat (GenerateContent model_name
                   (final_prompt agent_c (final_context a b) "Write a final email decision."))
           (attempts_made fc ac) /\
    slept log' = slept log + 2 * fa + 2 * fb + 2 * fc /\
    gen_calls la = gen_calls log /\
    gen_calls lb = gen_calls log + attempts_made fa aa /\
    gen_calls lc = gen_calls log + attempts_made fa aa + attempts_made fb ab /\
    (forall text, c = Some text -> exists before, log' = before ++ banner_events text).
Proof.
  intros Hparts.
  destruct (item_in_range (Py.split "(" price) 0 log) as [value Hvalue]; [lia|].
  destruct (item_in_range (Py.split "(" price) 1 log) as [part Hpart]; [lia|].
  set (P := fun r : result report * list event =>
    exists a b c fa fb fc aa ab ac la lb lc log',
      r = (run_outcome price news a b c, log') /\
      attempt_facts (client env) agent_a price ("Analyze " ++ ticker) la a fa aa /\
      attempt_facts (client env) agent_b news ("Analyze sentiment for " ++ ticker) lb b fb ab /\
      attempt_facts (client env) agent_c (final_context a b) "Write a final email decision."
        lc c fc ac /\
      filter is_generate log'
      = filter is_generate log
        ++ repeat (GenerateContent model_name
                     (final_prompt agent_a price ("Analyze " ++ ticker)))
             (attempts_made fa aa)
        ++ repeat (GenerateContent model_name
                     (final_prompt agent_b news ("Analyze sentiment for " ++ ticker)))
             (attempts_made fb ab)
        ++ repeat (GenerateContent model_name
                     (final_prompt agent_c (final_context a b)
                        "Write a final email decision."))
             (attempts_made fc ac) /\
      slept log' = slept log + 2 * fa + 2 * fb + 2 * fc /\
      gen_calls la = gen_calls log /\
      gen_calls lb = gen_calls log + attempts_made fa aa /\
      gen_calls lc = gen_calls log + attempts_made fa aa + attempts_made fb ab /\
      (forall text, c = Some text -> exists before, log' = before ++ banner_events text)).
  change (P (run_agents env ticker price news log)).
  unfold run_agents.
  apply (wp_val P _ _ _ _ _ Hvalue). apply (wp_val P _ _ _ _ _ Hpart).
  repeat run_step. cbv beta.
  match goal with
  | |- P (bind (decision_banner ?t) _ ?l) =>
      destruct (decision_banner_quiet t l) as (shown & Hshown & Hwhat & Hquiet & Hawake);
      destruct t as [final|]
  end.
  - apply (wp_val P _ _ _ _ _ Hshown). unfold P, ret, run_outcome.
    eexists _, _, (Some final). do 10 eexists.
    split; [reflexivity|].
    repeat (split; [eassumption|]).
    split; [|split; [|repeat split]].
    + rewrite !filter_app, !filter_work_events, Hquiet. cbn [filter is_generate].
      rewrite !app_nil_r, <- !app_assoc. reflexivity.
    + rewrite !slept_app, !slept_work_events, Hawake. cbn [slept]. lia.
    + rewrite !gen_calls_app. cbn [gen_calls filter is_generate List.length]. lia.
    + rewrite !gen_calls_app, !gen_calls_work_events.
      cbn [gen_calls filter is_generate List.length]. unfold attempts_made. lia.
    + rewrite !gen_calls_app, !gen_calls_work_events.
      cbn [gen_calls filter is_generate List.length]. unfold attempts_made. lia.
    + intros shown' [= <-]. rewrite Hwhat. eexists. reflexivity.
  - rewrite (bind_outcome _ _ _ _ _ Hshown). unfold P, run_outcome.
    eexists _, _, None. do 10 eexists.
    split; [reflexivity|].
    repeat (split; [eassumption|]).
    split; [|split; [|repeat split]].
    + rewrite !filter_app, !filter_work_events, Hquiet. cbn [filter is_generate].
      rewrite !app_nil_r, <- !app_assoc. reflexivity.
    + rewrite !slept_app, !slept_work_events, Hawake. cbn [slept]. lia.
    + rewrite !gen_calls_app. cbn [gen_calls filter is_generate List.length]. lia.
    + rewrite !gen_calls_app, !gen_calls_work_events.
      cbn [gen_calls filter is_generate List.length]. unfold attempts_made. lia.
    + rewrite !gen_calls_app, !gen_calls_work_events.
      cbn [gen_calls filter is_generate List.length]. unfold attempts_made. lia.
    + discriminate.
Qed.

Lemma run_analysis_cost (env : Env F) (ticker price : string) (log0 log : list event) :
  fst (stock_price env ticker log0) = Val (Some price) ->
  exists news a b c fa fb fc aa ab ac la lb lc log',
    (forall l, get_market_news env ticker l = (Val news, l ++ [YfNews ticker])) /\
    analysis env ticker log = (run_outcome price news a b c, log') /\
    attempt_facts (client env) agent_a price ("Analyze " ++ ticker) la a fa aa /\
    attempt_facts (client env) agent_b news ("Analyze sentiment for " ++ ticker) lb b fb ab /\
    attempt_facts (client env) agent_c (final_context a b) "Write a final email decision."
      lc c fc ac /\
    filter is_generate log'
    = filter is_generate log
      ++ repeat (GenerateContent model_name
                   (final_prompt agent_a price ("Analyze " ++ ticker)))
           (attempts_made fa aa)
      ++ repeat (GenerateContent model_name
                   (final_prompt agent_b news ("Analyze sentiment for " ++ ticker)))
           (attempts_made fb ab)
      ++ repeat (GenerateContent model_name
                   (final_prompt agent_c (final_context a b) "Write a final email decision."))
           (attempts_made fc ac) /\
    slept log' = slept log + 2 * fa + 2 * fb + 2 * fc /\
    gen_calls la = gen_calls log /\
    gen_calls lb = gen_calls log + attempts_made fa aa /\
    gen_calls lc = gen_calls log + attempts_made fa aa + attempts_made fb ab /\
    (forall text, c = Some text -> exists before, log' = before ++ banner_events text).
Proof.
  intros Hprice.
  destruct (get_stock_price_run fsub fdiv fmul hundred fmt_2f fmt_signed_2f env ticker)
    as (p & Hrun & _ & _ & Hp).
  assert (p = Some price) as -> by (rewrite (Hrun log0) in Hprice; now injection Hprice).
  destruct Hp as (Htruthy & Hparts).
  destruct (get_market_news_run env ticker) as (news & Hnews & _).
  unfold run_analysis. rewrite !bind_ui.
  rewrite (bind_val _ _ _ _ _ (Hrun _)), (bind_val _ _ _ _ _ (Hnews _)), Htruthy.
  match goal with
  | |- context [run_agents env ticker price news ?l] =>
      destruct (run_agents_cost env ticker price news l Hparts)
        as (a & b & c & fa & fb & fc & aa & ab & ac & la & lb & lc & log'
            & Hrun' & Ha & Hb & Hc & Hcalls & Hslept & Hla & Hlb & Hlc & Hend)
  end.
  exists news, a, b, c, fa, fb, fc, aa, ab, ac, la, lb, lc, log'.
  repeat (split; [assumption|]).
  rewrite !filter_app in Hcalls. rewrite !slept_app in Hslept.
  rewrite !gen_calls_app in Hla, Hlb, Hlc.
  cbn [filter is_generate slept gen_calls List.length] in Hcalls, Hslept, Hla, Hlb, Hlc.
  rewrite !app_nil_r in Hcalls. rewrite !Nat.add_0_r in Hslept, Hla, Hlb, Hlc.
  repeat (split; [assumption|]). assumption.
Qed.

(** A run for a symbol with a price ends normally or with the exception of
    the banner selection, and the latter only after a supervisor call that
    answered without text. *)
Lemma run_outcome_cases (env : Env F) (price news : string) (a b c : option string)
  (lc : list event) (fc : nat) (ac : bool) :
  attempt_facts (client env) agent_c (final_context a b) "Write a final email decision."
    lc c fc ac ->
  (forall e, run_outcome price news a b c = Exc e ->
     e = AttributeError /\
     exists n context,
       client env n model_name
         (final_prompt agent_c context "Write a final email decision.") = Some None) /\
  ((forall n model contents, client env n model contents <> Some None) ->
   exists rep, run_outcome price news a b c = Val rep).
Proof.
  intros Hc. unfold run_outcome. destruct c as [text|].
  - split; [discriminate | eauto].
  - destruct (attempt_facts_without_text _ _ _ _ _ _ _ Hc) as (n & Hn).
    split.
    + intros e [= <-]. split; [reflexivity | eauto].
    + intros Hno. now apply Hno in Hn.
Qed.

(** X5.  A run for a symbol with a price calls the model at least 3 and at
    most 6 times and pauses at most 12 seconds.  When every model call
    raises it makes exactly 6 calls, pauses 12 seconds and ends normally;
    when no model call raises it makes exactly 3 calls and does not pause.
    The run ends normally when no model call answers without text, and
    otherwise either normally or with [AttributeError]. *)
Theorem run_call_and_pause_budget :
  forall (env : Env F) (ticker price : string) (log0 log : list event),
    fst (stock_price env ticker log0) = Val (Some price) ->
    exists out log',
      analysis env ticker log = (out, log') /\
      gen_calls log + 3 <= gen_calls log' <= gen_calls log + 6 /\
      slept log' <= slept log + 12 /\
      ((forall n model contents, client env n model contents = None) ->
       gen_calls log' = gen_calls log + 6 /\ slept log' = slept log + 12 /\
       exists rep, out = Val rep) /\
      ((forall n model contents, client env n model contents <> None) ->
       gen_calls log' = gen_calls log + 3 /\ slept log' = slept log) /\
      ((forall n model contents, client env n model contents <> Some None) ->
       exists rep, out = Val rep) /\
      (forall e, out = Exc e -> e = AttributeError).
Proof.
  intros env ticker price log0 log Hprice.
  destruct (run_analysis_cost env ticker price log0 log Hprice)
    as (news & a & b & c & fa & fb & fc & aa & ab & ac & la & lb & lc & log'
        & _ & Hrun & Ha & Hb & Hc & Hcalls & Hslept & _).
  eexists _, log'. split; [exact Hrun|].
  assert (Hn : gen_calls log'
               = gen_calls log + attempts_made fa aa + attempts_made fb ab
                 + attempts_made fc ac).
  { unfold gen_calls. rewrite Hcalls, !length_app, !repeat_length. lia. }
  pose proof (attempts_made_bounds _ _ _ _ _ _ _ _ Ha) as Ba.
  pose proof (attempts_made_bounds _ _ _ _ _ _ _ _ Hb) as Bb.
  pose proof (attempts_made_bounds _ _ _ _ _ _ _ _ Hc) as Bc.
  destruct (run_outcome_cases env price news a b c lc fc ac Hc) as (Hexc & Hval).
  unfold max_attempts in *.
  split; [lia|]. split; [lia|]. split; [|split; [|split]].
  - intros Hfail.
    destruct (attempt_facts_all_fail _ _ _ _ _ _ _ _ Hfail Ha) as (-> & -> & _).
    destruct (attempt_facts_all_fail _ _ _ _ _ _ _ _ Hfail Hb) as (-> & -> & _).
    destruct (attempt_facts_all_fail _ _ _ _ _ _ _ _ Hfail Hc) as (-> & -> & ->).
    unfold attempts_made, max_attempts in *.
    split; [lia|]. split; [lia|]. unfold run_outcome. eauto.
  - intros Hok.
    destruct (attempt_facts_none_fail _ _ _ _ _ _ _ _ Hok Ha) as (-> & ->).
    destruct (attempt_facts_none_fail _ _ _ _ _ _ _ _ Hok Hb) as (-> & ->).
    destruct (attempt_facts_none_fail _ _ _ _ _ _ _ _ Hok Hc) as (-> & ->).
    unfold attempts_made in *. lia.
  - exact Hval.
  - intros e He. now apply Hexc in He.
Qed.

(** X6.  The model calls of a run for a symbol with a price come in three
    blocks, in this order: one or two calls with the technical agent's
    prompt on the price text, then one or two calls with the news agent's
    prompt on the news text, then one or two calls with the supervisor's
    prompt on the two results.  No agent is called before the one before it
    has returned.  The news text and the two results are those of the
    report when the run ends normally, which it does when no model call
    answers without text. *)
Theorem run_model_calls_in_order :
  forall (env : Env F) (ticker price : string) (log0 log : list event),
    fst (stock_price env ticker log0) = Val (Some price) ->
    exists out log' news a b na nb nc,
      analysis env ticker log = (out, log') /\
      (forall l, get_market_news env ticker l = (Val news, l ++ [YfNews ticker])) /\
      1 <= na <= 2 /\ 1 <= nb <= 2 /\ 1 <= nc <= 2 /\
      filter is_generate log'
      = filter is_generate log
        ++ repeat (GenerateContent model_name
                     (final_prompt agent_a price ("Analyze " ++ ticker))) na
        ++ repeat (GenerateContent model_name
                     (final_prompt agent_b news
                        ("Analyze sentiment for " ++ ticker))) nb
        ++ repeat (GenerateContent model_name
                     (final_prompt agent_c (final_context a b)
                        "Write a final email decision.")) nc /\
      (forall rep, out = Val rep ->
         news_str rep = news /\ res_a rep = a /\ res_b rep = b) /\
      ((forall n model contents, client env n model contents <> Some None) ->
       exists rep, out = Val rep).
Proof.
  intros env ticker price log0 log Hprice.
  destruct (run_analysis_cost env ticker price log0 log Hprice)
    as (news & a & b & c & fa & fb & fc & aa & ab & ac & la & lb & lc & log'
        & Hnews & Hrun & Ha & Hb & Hc & Hcalls & _).
  pose proof (attempts_made_bounds _ _ _ _ _ _ _ _ Ha) as Ba.
  pose proof (attempts_made_bounds _ _ _ _ _ _ _ _ Hb) as Bb.
  pose proof (attempts_made_bounds _ _ _ _ _ _ _ _ Hc) as Bc.
  destruct (run_outcome_cases env price news a b c lc fc ac Hc) as (_ & Hval).
  unfold max_attempts in *.
  exists (run_outcome price news a b c), log', news, a, b,
    (attempts_made fa aa), (attempts_made fb ab), (attempts_made fc ac).
  split; [exact Hrun|]. split; [exact Hnews|].
  repeat (split; [lia|]). split; [exact Hcalls|]. split; [|exact Hval].
  unfold run_outcome. destruct c; [|discriminate].
  intros rep [= <-]. repeat split.
Qed.

(** X7.  When the supervisor's model calls all raise, the run for a symbol
    with a price shows the BUY banner, whatever the technical and the news
    agent have returned: the supervisor's canned text is the generic
    decision text, which contains "BUY".  The last two events of the run
    are the green banner with that text, in the container, and the
    balloons. *)
Theorem supervisor_outage_shows_buy :
  forall (env : Env F) (ticker price : string) (log0 log : list event),
    fst (stock_price env ticker log0) = Val (Some price) ->
    (forall n context,
       client env n model_name
         (final_prompt agent_c context "Write a final email decision.") = None) ->
    exists rep log' before,
      analysis env ticker log = (Val rep, log') /\
      res_c rep = Some SIM_DECISION /\ signal rep = BUY /\
      log' =
      before ++
      [Ui "container" "success"
         [("### 🟢 BUY SIGNAL" ++ Py.nl ++ Py.nl
           ++ "SIMULATION DECISION: BUY. (API Quota Reached).")%string];
       Ui "st" "balloons" []].
Proof.
  intros env ticker price log0 log Hprice Hfail.
  destruct (run_analysis_cost env ticker price log0 log Hprice)
    as (news & a & b & c & fa & fb & fc & aa & ab & ac & la & lb & lc & log'
        & _ & Hrun & _ & _ & (_ & Hc) & _ & _ & _ & _ & _ & Hend).
  assert (c = Some SIM_DECISION) as ->.
  { destruct ac.
    - destruct Hc as (_ & Hok). change (model agent_c) with model_name in Hok.
      rewrite Hfail in Hok. discriminate.
    - now destruct Hc as (_ & ->). }
  destruct (Hend _ eq_refl) as (before & Hlog).
  eexists _, log', before. split; [exact Hrun|]. split; [reflexivity|].
  split; [reflexivity | exact Hlog].
Qed.

(** The first events of the run of the agents: the metric, built from the
    first two parts of the price text. *)
Lemma run_agents_metric (env : Env F) (ticker price news value part : string)
  (more : list string) (log : list event) :
  Py.split "(" price = value :: part :: more ->
  exists new,
    snd (run_agents env ticker price news log)
    = log ++ Ui "st" "metric" [(ticker ++ " Live Price")%string; value; Py.strip ")" part]
             :: new.
Proof.
  intros Hsplit.
  set (P := fun r : result report * list event =>
    exists new,
      snd r = log ++ Ui "st" "metric"
                       [(ticker ++ " Live Price")%string; value; Py.strip ")" part] :: new).
  change (P (run_agents env ticker price news log)).
  unfold run_agents, item. rewrite Hsplit. cbn [nth_error].
  apply (wp_val P _ _ log log value eq_refl). apply (wp_val P _ _ log log part eq_refl).
  repeat run_step. cbv beta.
  match goal with
  | |- P (bind (decision_banner ?t) _ ?l) =>
      destruct (decision_banner_quiet t l) as (shown & Hshown & _); destruct t
  end.
  - apply (wp_val P _ _ _ _ _ Hshown). unfold P, ret. cbn [snd].
    rewrite <- !app_assoc. eexists. reflexivity.
  - rewrite (bind_outcome _ _ _ _ _ Hshown). unfold P. cbn [snd].
    rewrite <- !app_assoc. eexists. reflexivity.
Qed.

(** X8.  For a symbol with a price, the metric shows the label
    "<ticker> Live Price", as value the price with its dollar sign and the
    blank that stood before the bracket, and as delta the percent change
    with its percent sign and without the brackets, provided the two
    formatted numbers hold no bracket themselves. *)
Theorem metric_shows_price_and_change :
  forall (env : Env F) (ticker : string) (current open_p : F) (log : list event),
    yf_history env ticker = Some (FrameLast current open_p) ->
    has_char "(" (fmt_2f current) = false ->
    has_char "(" (fmt_signed_2f (fmul (fdiv (fsub current open_p) open_p) hundred)) = false ->
    has_char ")" (fmt_signed_2f (fmul (fdiv (fsub current open_p) open_p) hundred)) = false ->
    exists new,
      snd (analysis env ticker log) = log ++ new /\
      In (Ui "st" "metric"
            [(ticker ++ " Live Price")%string;
             ("$" ++ fmt_2f current ++ " ")%string;
             (fmt_signed_2f (fmul (fdiv (fsub current open_p) open_p) hundred) ++ "%")%string])
         new.
Proof.
  intros env ticker current open_p log Hhist Hcur Hopen Hclose.
  set (change := fmt_signed_2f _) in *.
  set (price := ("$" ++ fmt_2f current ++ " (" ++ change ++ "%)")%string).
  assert (Hsplit : Py.split "(" price
                   = ("$" ++ fmt_2f current ++ " ")%string :: [(change ++ "%)")%string]).
  { replace price with (("$" ++ fmt_2f current ++ " ") ++ String "(" (change ++ "%)"))%string
      by (unfold price; simpl; now rewrite string_app_assoc).
    rewrite split_at_first_separator.
    - f_equal. apply split_without_separator. now rewrite has_char_app, Hopen.
    - simpl. now rewrite has_char_app, Hcur. }
  destruct (get_market_news_run env ticker) as (news & Hnews & _).
  unfold run_analysis. rewrite !bind_ui.
  assert (Hprice : forall l, stock_price env ticker l = (Val (Some price), l ++ [YfHistory ticker])).
  { intros l. unfold get_stock_price, try_except, bind, ticker_history.
    rewrite Hhist. reflexivity. }
  rewrite (bind_val _ _ _ _ _ (Hprice _)), (bind_val _ _ _ _ _ (Hnews _)).
  change (Py.truthy price) with true. cbv iota.
  match goal with
  | |- context [run_agents env ticker price news ?l] =>
      destruct (run_agents_metric env ticker price news _ _ _ l Hsplit) as (new & Hnew)
  end.
  rewrite Hnew, (strip_percent_paren change Hclose), <- !app_assoc.
  eexists. split; [reflexivity|].
  apply in_or_app. right. apply in_or_app. right. apply in_or_app. right.
  apply in_or_app. right. now left.
Qed.

(** X9.  When the provider gives at least one news item and no shown title
    holds a line break, the news text has one line for each of the first
    three items and none for the others: splitting it at the line breaks
    gives back the headlines, "- " and the title, or "- None" for an item
    without title. *)
Theorem news_text_has_one_line_per_item :
  forall (env : Env F) (symbol : string) (first : news_item) (others : list news_item)
    (log : list event),
    yf_news env symbol = Some (first :: others) ->
    Forall (fun n => has_char "010" (headline n) = false) (firstn 3 (first :: others)) ->
    exists text,
      get_market_news env symbol log = (Val text, log ++ [YfNews symbol]) /\
      Py.split "010" text = map headline (firstn 3 (first :: others)) /\
      List.length (Py.split "010" text) = Nat.min 3 (S (List.length others)) /\
      (forall n, In n (firstn 3 (first :: others)) -> dict_get "title" n = None ->
                 In "- None"%string (Py.split "010" text)).
Proof.
  intros env symbol first others log Hnews Hlines.
  destruct (get_market_news_run env symbol) as (text & Hrun & _ & Hcase).
  rewrite Hnews in Hcase. destruct Hcase as (-> & _).
  eexists. split; [apply Hrun|].
  assert (Hsplit : Py.split "010" (Py.join Py.nl (map headline (firstn 3 (first :: others))))
                   = map headline (firstn 3 (first :: others))).
  { cbn [firstn map] in *. apply (split_join "010").
    rewrite <- map_cons. apply Forall_map. exact Hlines. }
  rewrite Hsplit. split; [reflexivity|]. split.
  - rewrite length_map, length_firstn. reflexivity.
  - intros n Hin Hnone. apply in_map_iff. exists n. split; [|exact Hin].
    unfold headline. now rewrite Hnone.
Qed.

(** X17.  [get_stock_price] never raises and asks the provider once.  It
    gives no price exactly when the provider raises or gives an empty
    history; for a history with a last row it gives "$", the close with two
    decimals, and in brackets the signed change from the open in percent,
    [(close - open) / open * 100], with two decimals and a percent sign. *)
Theorem stock_price_absent_iff_no_row :
  forall (env : Env F) (symbol : string) (log : list event),
  exists price,
    stock_price env symbol log = (Val price, log ++ [YfHistory symbol]) /\
    (price = None <->
     yf_history env symbol = None \/ yf_history env symbol = Some FrameEmpty) /\
    (forall current open_p,
       yf_history env symbol = Some (FrameLast current open_p) ->
       price = Some ("$" ++ fmt_2f current ++ " ("
                     ++ fmt_signed_2f (fmul (fdiv (fsub current open_p) open_p) hundred)
                     ++ "%)")%string).
Proof.
  intros env symbol log.
  unfold get_stock_price, try_except, bind, ticker_history.
  destruct (yf_history env symbol) as [[|current open_p]|].
  - exists None. split; [reflexivity|]. split; [tauto | discriminate].
  - eexists. split; [reflexivity|]. split.
    + split; [discriminate | intros [H | H]; discriminate].
    + intros c o [= -> ->]. reflexivity.
  - exists None. split; [reflexivity|]. split; [tauto | discriminate].
Qed.

(** X18.  When no model call raises, the three results of a run for a symbol
    with a price are the answers of the model to three calls in a row: the
    technical result answers the prompt on the price text, the news result
    the next call, with the prompt on the news text, and the supervisor's
    result the call after that, with the prompt on the two results.  When
    the supervisor's answer is a text, the run ends with the report of the
    three answers and the label of that text, and its last events are the
    banner of that label on the text, followed by the balloons for BUY;
    when the supervisor's answer has no text, the run ends with
    [AttributeError]. *)
Theorem results_are_the_three_answers :
  forall (env : Env F) (ticker price : string) (log0 log : list event),
    fst (stock_price env ticker log0) = Val (Some price) ->
    (forall n model contents, client env n model contents <> None) ->
    exists news a b c log',
      (forall l, get_market_news env ticker l = (Val news, l ++ [YfNews ticker])) /\
      client env (gen_calls log) model_name
        (final_prompt agent_a price ("Analyze " ++ ticker)) = Some a /\
      client env (gen_calls log + 1) model_name
        (final_prompt agent_b news ("Analyze sentiment for " ++ ticker))
      = Some b /\
      client env (gen_calls log + 2) model_name
        (final_prompt agent_c (final_context a b)
           "Write a final email decision.") = Some c /\
      match c with
      | Some text =>
          analysis env ticker log
          = (Val (mkReport price news a b (Some text) (classify text)), log') /\
          exists before,
            log' =
            before ++
            match classify text with
            | BUY =>
                [Ui "container" "success"
                   [("### 🟢 BUY SIGNAL" ++ Py.nl ++ Py.nl ++ text)%string];
                 Ui "st" "balloons" []]
            | SELL =>
                [Ui "container" "error"
                   [("### 🔴 SELL SIGNAL" ++ Py.nl ++ Py.nl ++ text)%string]]
            | HOLD =>
                [Ui "container" "warning"
                   [("### 🟡 HOLD SIGNAL" ++ Py.nl ++ Py.nl ++ text)%string]]
            end
      | None => analysis env ticker log = (Exc AttributeError, log')
      end.
Proof.
  intros env ticker price log0 log Hprice Hok.
  destruct (run_analysis_cost env ticker price log0 log Hprice)
    as (news & a & b & c & fa & fb & fc & aa & ab & ac & la & lb & lc & log'
        & Hnews & Hrun & Ha & Hb & Hc & _ & _ & Hla & Hlb & Hlc & Hend).
  destruct (attempt_facts_none_fail _ _ _ _ _ _ _ _ Hok Ha) as (-> & ->).
  destruct (attempt_facts_none_fail _ _ _ _ _ _ _ _ Hok Hb) as (-> & ->).
  destruct (attempt_facts_none_fail _ _ _ _ _ _ _ _ Hok Hc) as (-> & ->).
  destruct Ha as (_ & _ & Ha). destruct Hb as (_ & _ & Hb). destruct Hc as (_ & _ & Hc).
  unfold attempts_made in *. rewrite Nat.add_0_r in Ha, Hb, Hc.
  replace (gen_calls log + (0 + 1) + (0 + 1)) with (gen_calls log + 2) in Hlc by lia.
  rewrite Hla in Ha. rewrite Hlb in Hb. rewrite Hlc in Hc.
  exists news, a, b, c, log'.
  repeat (split; [assumption|]).
  destruct c as [text|]; [|exact Hrun].
  split; [exact Hrun|].
  destruct (Hend _ eq_refl) as (before & ->). exists before.
  unfold banner_events, banner_of. now destruct (classify text).
Qed.

End RunFacts.

(** ** The sample runs of the three agents *)

Lemma run_call_and_pause_budget_witness :
  exists out log',
    Sample.run Sample.all_fail "NVDA" = (out, log') /\
    gen_calls [] + 3 <= gen_calls log' <= gen_calls [] + 6 /\
    slept log' <= slept [] + 12 /\
    ((forall n model contents, client Sample.all_fail n model contents = None) ->
     gen_calls log' = gen_calls [] + 6 /\ slept log' = slept [] + 12 /\
     exists rep, out = Val rep) /\
    ((forall n model contents, client Sample.all_fail n model contents <> None) ->
     gen_calls log' = gen_calls [] + 3 /\ slept log' = slept []) /\
    ((forall n model contents, client Sample.all_fail n model contents <> Some None) ->
     exists rep, out = Val rep) /\
    (forall e, out = Exc e -> e = AttributeError).
Proof.
  apply (run_call_and_pause_budget Nat.sub Nat.div Nat.mul 100 Sample.fmt
           Sample.fmt_signed Sample.all_fail "NVDA" "$130.00 (+2.00%)" [] []).
  reflexivity.
Defined.

Lemma run_model_calls_in_order_witness :
  exists out log' news a b na nb nc,
    Sample.run Sample.all_fail "NVDA" = (out, log') /\
    (forall l, get_market_news Sample.all_fail "NVDA" l = (Val news, l ++ [YfNews "NVDA"])) /\
    1 <= na <= 2 /\ 1 <= nb <= 2 /\ 1 <= nc <= 2 /\
    filter is_generate log'
    = filter is_generate []
      ++ repeat (GenerateContent model_name
                   (final_prompt agent_a "$130.00 (+2.00%)" "Analyze NVDA")) na
      ++ repeat (GenerateContent model_name
                   (final_prompt agent_b news "Analyze sentiment for NVDA")) nb
      ++ repeat (GenerateContent model_name
                   (final_prompt agent_c (final_context a b)
                      "Write a final email decision.")) nc /\
    (forall rep, out = Val rep ->
       news_str rep = news /\ res_a rep = a /\ res_b rep = b) /\
    ((forall n model contents, client Sample.all_fail n model contents <> Some None) ->
     exists rep, out = Val rep).
Proof.
  apply (run_model_calls_in_order Nat.sub Nat.div Nat.mul 100 Sample.fmt
           Sample.fmt_signed Sample.all_fail "NVDA" "$130.00 (+2.00%)" [] []).
  reflexivity.
Defined.

Lemma supervisor_outage_shows_buy_witness :
  exists rep log' before,
    Sample.run SampleRun.supervisor_down "NVDA" = (Val rep, log') /\
    res_c rep = Some SIM_DECISION /\ signal rep = BUY /\
    log' =
    before ++
    [Ui "container" "success"
       [("### 🟢 BUY SIGNAL" ++ Py.nl ++ Py.nl
         ++ "SIMULATION DECISION: BUY. (API Quota Reached).")%string];
     Ui "st" "balloons" []].
Proof.
  apply (supervisor_outage_shows_buy Nat.sub Nat.div Nat.mul 100 Sample.fmt
           Sample.fmt_signed SampleRun.supervisor_down "NVDA" "$130.00 (+2.00%)" [] []).
  - reflexivity.
  - intros n context. reflexivity.
Defined.

Lemma metric_shows_price_and_change_witness :
  exists new,
    snd (Sample.run Sample.all_fail "NVDA") = [] ++ new /\
    In (Ui "st" "metric" ["NVDA Live Price"%string; "$130.00 "%string; "+2.00%"%string]) new.
Proof.
  apply (metric_shows_price_and_change Nat.sub Nat.div Nat.mul 100 Sample.fmt
           Sample.fmt_signed Sample.all_fail "NVDA" 130 127 []); reflexivity.
Defined.

Lemma news_text_has_one_line_per_item_witness :
  exists text,
    get_market_news Sample.all_fail "NVDA" [] = (Val text, [] ++ [YfNews "NVDA"]) /\
    Py.split "010" text
    = ["- Chip demand grows"%string; "- None"%string; "- Earnings next week"%string] /\
    List.length (Py.split "010" text) = 3 /\
    (forall n,
       In n [[("title"%string, "Chip demand grows"%string)];
             [("publisher"%string, "Wire"%string)];
             [("title"%string, "Earnings next week"%string)]] ->
       dict_get "title" n = None ->
       In "- None"%string (Py.split "010" text)).
Proof.
  apply (news_text_has_one_line_per_item Sample.all_fail "NVDA"
           [("title"%string, "Chip demand grows"%string)]
           [[("publisher"%string, "Wire"%string)];
            [("title"%string, "Earnings next week"%string)];
            [("title"%string, "Fourth item"%string)]] []).
  - reflexivity.
  - repeat constructor.
Defined.

(** ** The script around the analysis *)

Lemma quiet_app (l1 l2 : list event) : quiet l1 -> quiet l2 -> quiet (l1 ++ l2).
Proof.
  unfold quiet. intros H1 H2. now rewrite existsb_app, H1, H2.
Qed.

Lemma quiet_gen_calls (events : list event) : quiet events -> gen_calls events = 0.
Proof.
  unfold quiet, gen_calls. induction events as [|ev events IH]; [reflexivity|].
  simpl. intros H. apply orb_false_iff in H as (Hev & Hrest).
  destruct ev; simpl in *; try discriminate; auto.
Qed.

Lemma bind_ask {A B} (target method : string) (args : list string) (answer : A)
  (k : A -> M B) (log : list event) :
  bind (ask target method args answer) k log = k answer (log ++ [Ui target method args]).
Proof. reflexivity. Qed.

(** The header never fails: the banner file is tried first, and the image
    from the web is shown when, and only when, that raised. *)
Lemma page_header_run (session : Session) :
  exists new,
    (forall log, page_header session log = (Val tt, log ++ new)) /\
    quiet new /\ slept new = 0 /\
    In (Ui "st" "image" ["banner.png"%string; BANNER_CAPTION]) new /\
    In (Ui "st" "title" ["🤖 AI Hedge Fund Manager"%string]) new /\
    (In (Ui "st" "image"
           ["https://images.unsplash.com/photo-1611974765270-ca1258634369"%string;
            BANNER_CAPTION]) new
     <-> exists e, banner_file session = Exc e).
Proof.
  unfold page_header.
  destruct (banner_file session) as [[]|e] eqn:Hfile.
  - eexists. split.
    + intros log. rewrite bind_ui. unfold bind at 1, try_except, ui_outcome.
      rewrite !bind_ui. unfold ui, emit.
      rewrite <- !app_assoc. reflexivity.
    + cbn. repeat split; auto.
      * intros [H | [H | [H | [H | []]]]]; discriminate.
      * intros [e He]. discriminate.
  - eexists. split.
    + intros log. rewrite bind_ui. unfold bind at 1, try_except, ui_outcome.
      cbn [any_exn]. unfold ui at 1, emit. rewrite !bind_ui.
      unfold ui, emit. rewrite <- !app_assoc. reflexivity.
    + cbn. repeat split; eauto 6.
Qed.

Ltac settle :=
  repeat split; intros; cbn in *;
  try reflexivity; try discriminate; try congruence; try tauto;
  try (intuition discriminate); try (intuition congruence).

(** The key resolution of the sidebar.  Its outcome and its events do not
    depend on the log.  It returns a key that is not empty, from the secrets
    (then "Connected" is shown and the key input is not) or else from the
    key input (then "Connected" is not shown); it stops the script when
    there is no key; and it lets through an exception of the secrets that is
    no [Exception]. *)
Lemma api_access_run (session : Session) :
  exists r new,
    (forall log, api_access session log = (r, log ++ new)) /\
    quiet new /\ slept new = 0 /\
    match r with
    | Val key =>
        key <> EmptyString /\
        ((secrets session = Val (Some key) /\
          In (Ui "st" "success" ["✅ Connected"%string]) new /\
          forall args, ~ In (Ui "st" "text_input" args) new)
         \/
         (key = key_input session /\
          secrets session <> Val (Some key) /\
          (forall found, secrets session = Val (Some found) -> found = EmptyString) /\
          (forall e, secrets session = Exc e -> is_Exception e = true) /\
          ~ In (Ui "st" "success" ["✅ Connected"%string]) new /\
          In (Ui "st" "text_input"
                ["Enter Gemini API Key"%string; "password"%string;
                 "Get your free key at aistudio.google.com"%string]) new))
    | Exc e =>
        (e = StopScript /\
         key_input session = EmptyString /\
         (forall key, secrets session = Val (Some key) -> key = EmptyString) /\
         (forall e', secrets session = Exc e' -> is_Exception e' = true) /\
         In (Ui "st" "warning"
               ["⚠️ Please enter your API Key to unlock the agents."%string]) new /\
         In (Ui "st" "stop" []) new)
        \/
        (secrets session = Exc e /\ is_Exception e = false)
    end.
Proof.
  unfold api_access, load_secret, enter_key.
  destruct (secrets session) as [[[|a k]|]|e] eqn:Hs;
    [ | | | destruct (is_Exception e) eqn:He ];
    destruct (key_input session) as [|b t] eqn:Hk.
  all: eexists _, _; split;
    [ intros log; cbv [bind ui emit ask outcome try_except ret st_stop Py.truthy];
      try rewrite He; rewrite <- ?app_assoc; reflexivity | ].
  all: split; [reflexivity|]; split; [reflexivity|].
  all: first [ left; solve [settle] | right; solve [settle]
             | split; [discriminate|]; first [ left; solve [settle] | right; solve [settle] ] ].
Qed.

(** The subscription feature never stops the script.  It pauses a second
    and shows the toast exactly when the button was pressed on an e-mail
    that is not empty; pressed on an empty one, it shows a warning. *)
Lemma alerts_run (session : Session) :
  exists new,
    (forall log, alerts session log = (Val tt, log ++ new)) /\
    quiet new /\
    slept new = (if subscribe_btn session && Py.truthy (email_input session) then 1 else 0) /\
    (In (Ui "st" "toast" [("✅ Subscribed! Alerts sent to " ++ email_input session)%string]) new
     <-> subscribe_btn session = true /\ email_input session <> EmptyString) /\
    (In (Ui "st" "warning" ["Enter an email first."%string]) new
     <-> subscribe_btn session = true /\ email_input session = EmptyString).
Proof.
  unfold alerts.
  destruct (subscribe_btn session); destruct (email_input session) as [|a mail].
  all: eexists; split;
    [ intros log; cbv [bind ui emit ask time_sleep ret Py.truthy];
      rewrite <- ?app_assoc; reflexivity | ].
  all: split; [reflexivity|]; split; [reflexivity|].
  all: settle.
Qed.

(** Building the client: on an [Exception] the error is shown with the text
    of the exception and the script stops. *)
Lemma init_client_run (session : Session) (api_key : string) :
  exists r new,
    (forall log, init_client session api_key log = (r, log ++ new)) /\
    quiet new /\ slept new = 0 /\
    match new_client session api_key with
    | Val _ => r = Val tt /\ new = []
    | Exc e =>
        if is_Exception e
        then r = Exc StopScript /\
             new = [Ui "st" "error" [("❌ Connection Error: " ++ message session e)%string];
                    Ui "st" "stop" []]
        else r = Exc e /\ new = []
    end.
Proof.
  unfold init_client.
  destruct (new_client session api_key) as [[]|e] eqn:Hnew;
    [ | destruct (is_Exception e) eqn:He ].
  all: eexists _, _; split;
    [ intros log; cbv [bind ui emit outcome try_except_as ret st_stop];
      try rewrite He; rewrite <- ?app_assoc;
      first [reflexivity | rewrite app_nil_r; reflexivity] | ].
  all: settle.
Qed.

Lemma input_area_run (session : Session) :
  exists new,
    (forall log,
       input_area session log = (Val (ticker_input session, start_btn session), log ++ new)) /\
    quiet new /\ slept new = 0.
Proof.
  unfold input_area. eexists. split.
  - intros log. cbv [bind ui emit ask ret]. rewrite <- !app_assoc. reflexivity.
  - settle.
Qed.

Lemma api_access_any_log (session : Session) (log0 : list event) (key : string) :
  fst (api_access session log0) = Val key ->
  exists new,
    (forall log, api_access session log = (Val key, log ++ new)) /\ quiet new /\
    key <> EmptyString /\
    (secrets session = Val (Some key) \/ key = key_input session).
Proof.
  intros Hkey.
  destruct (api_access_run session) as (r & new & Hrun & Hquiet & _ & Hcase).
  rewrite (Hrun log0) in Hkey. cbn [fst] in Hkey. subst r.
  exists new. repeat split; try assumption; tauto.
Qed.

(** X10.  The sidebar passes on a key only if it is not empty.  The key
    comes from the secrets, and then "Connected" is shown and no key input;
    or the secrets hold no key that could be used (the lookup gives no key, an
    empty one, or raises an [Exception]), the key comes from the key input,
    and "Connected" is not shown: a typed key never replaces a key of the
    secrets that is not empty. *)
Theorem api_access_returns_usable_key :
  forall (session : Session) (log log' : list event) (key : string),
    api_access session log = (Val key, log') ->
    exists new,
      log' = log ++ new /\
      key <> EmptyString /\
      ((secrets session = Val (Some key) /\
        In (Ui "st" "success" ["✅ Connected"%string]) new /\
        forall args, ~ In (Ui "st" "text_input" args) new)
       \/
       (key = key_input session /\
        secrets session <> Val (Some key) /\
        (forall found, secrets session = Val (Some found) -> found = EmptyString) /\
        (forall e, secrets session = Exc e -> is_Exception e = true) /\
        ~ In (Ui "st" "success" ["✅ Connected"%string]) new /\
        In (Ui "st" "text_input"
              ["Enter Gemini API Key"%string; "password"%string;
               "Get your free key at aistudio.google.com"%string]) new)).
Proof.
  intros session log log' key Hrun.
  destruct (api_access_run session) as (r & new & Hrun' & _ & _ & Hcase).
  rewrite Hrun' in Hrun. injection Hrun as -> <-.
  exists new. split; [reflexivity | exact Hcase].
Qed.

(** X11.  The page header never fails and always shows a banner and the
    title: the banner file is tried, and the image from the web is shown
    exactly when showing the file raised, whatever was raised. *)
Theorem page_header_always_shows_a_banner :
  forall (session : Session) (log : list event),
  exists new,
    page_header session log = (Val tt, log ++ new) /\
    In (Ui "st" "title" ["🤖 AI Hedge Fund Manager"%string]) new /\
    In (Ui "st" "image" ["banner.png"%string; BANNER_CAPTION]) new /\
    (In (Ui "st" "image"
           ["https://images.unsplash.com/photo-1611974765270-ca1258634369"%string;
            BANNER_CAPTION]) new
     <-> exists e, banner_file session = Exc e) /\
    quiet new.
Proof.
  intros session log.
  destruct (page_header_run session) as (new & Hrun & Hquiet & _ & Hfile & Htitle & Hweb).
  exists new. auto.
Qed.

(** X12.  The subscription feature never stops the script and never calls
    the market data provider or the model.  It shows the toast with the
    e-mail, after a pause of one second, exactly when the button was pressed
    on an e-mail that is not empty, and the warning exactly when the button
    was pressed on an empty e-mail. *)
Theorem alerts_toast_needs_an_email :
  forall (session : Session) (log : list event),
  exists new,
    alerts session log = (Val tt, log ++ new) /\
    quiet new /\
    slept new = (if subscribe_btn session && Py.truthy (email_input session) then 1 else 0) /\
    (In (Ui "st" "toast" [("✅ Subscribed! Alerts sent to " ++ email_input session)%string]) new
     <-> subscribe_btn session = true /\ email_input session <> EmptyString) /\
    (In (Ui "st" "warning" ["Enter an email first."%string]) new
     <-> subscribe_btn session = true /\ email_input session = EmptyString).
Proof.
  intros session log.
  destruct (alerts_run session) as (new & Hrun & H).
  exists new. split; [apply Hrun | exact H].
Qed.

Section ScriptFacts.

Context {F : Type} (fsub fdiv fmul : F -> F -> F) (hundred : F)
  (fmt_2f fmt_signed_2f : F -> string).

Local Abbreviation analysis :=
  (run_analysis fsub fdiv fmul hundred fmt_2f fmt_signed_2f).
Local Abbreviation whole :=
  (script fsub fdiv fmul hundred fmt_2f fmt_signed_2f).

(** The script up to the analysis, when a key is found and the client is
    built: its events are quiet, and what follows is the analysis of the
    typed ticker if it was asked for. *)
Lemma script_reaches_analysis (env : Env F) (session : Session) (log0 log : list event)
  (key : string) :
  fst (api_access session log0) = Val key ->
  new_client session key = Val tt ->
  exists pre,
    quiet pre /\
    whole env session log
    = if start_btn session
      then lift_report (analysis env (ticker_input session) (log ++ pre))
      else (Val None, log ++ pre).
Proof.
  intros Hkey Hclient.
  destruct (page_header_run session) as (hdr & Hhdr & Qh & _).
  destruct (api_access_any_log session log0 key Hkey) as (acc & Hacc & Qa & _).
  destruct (alerts_run session) as (al & Hal & Ql & _).
  destruct (init_client_run session key) as (rcl & cl & Hcl & Qc & _ & Hcase).
  rewrite Hclient in Hcase. destruct Hcase as (-> & ->).
  destruct (input_area_run session) as (inp & Hinp & Qi & _).
  exists (hdr ++ acc ++ al ++ inp). split; [auto using quiet_app|].
  unfold script.
  rewrite (bind_val _ _ _ _ _ (Hhdr _)), (bind_val _ _ _ _ _ (Hacc _)),
    (bind_val _ _ _ _ _ (Hal _)), (bind_val _ _ _ _ _ (Hcl _)),
    (bind_val _ _ _ _ _ (Hinp _)).
  rewrite app_nil_r, <- !app_assoc. cbn [fst snd].
  destruct (start_btn session); [|reflexivity].
  unfold bind, lift_report, ret.
  destruct (analysis env (ticker_input session) _) as [[rep|e] log']; reflexivity.
Qed.

(** The script when it does not reach the analysis: it ends with an
    exception after quiet events. *)
Lemma script_stops_early (env : Env F) (session : Session) (log : list event) :
  (forall key log0, fst (api_access session log0) = Val key ->
                    new_client session key <> Val tt) ->
  exists e new, whole env session log = (Exc e, log ++ new) /\ quiet new.
Proof.
  intros Hno.
  destruct (page_header_run session) as (hdr & Hhdr & Qh & _).
  destruct (api_access_run session) as (racc & acc & Hacc & Qa & _).
  unfold script. rewrite (bind_val _ _ _ _ _ (Hhdr _)).
  destruct racc as [key|e].
  - destruct (alerts_run session) as (al & Hal & Ql & _).
    destruct (init_client_run session key) as (rcl & cl & Hcl & Qc & _ & Hcase).
    rewrite (bind_val _ _ _ _ _ (Hacc _)), (bind_val _ _ _ _ _ (Hal _)).
    assert (Hkey : fst (api_access session []) = Val key) by now rewrite Hacc.
    specialize (Hno key [] Hkey).
    destruct (new_client session key) as [[]|e]; [congruence|].
    assert (exists e', rcl = Exc e') as [e' ->]
      by (destruct (is_Exception e); destruct Hcase as (-> & _); eauto).
    rewrite (bind_exc _ _ _ _ _ (Hcl _)).
    exists e', (hdr ++ acc ++ al ++ cl). rewrite <- !app_assoc.
    split; [reflexivity | auto using quiet_app].
  - rewrite (bind_exc _ _ _ _ _ (Hacc _)).
    exists e, (hdr ++ acc). rewrite <- app_assoc.
    split; [reflexivity | auto using quiet_app].
Qed.

(** X13.  Without a key (nothing typed, and the secrets raise an
    [Exception], hold no key or hold an empty one) the script stops with the
    warning of the sidebar.  The header was shown before: the banner stays
    on the page.  No market data or model call was made and nothing was
    slept. *)
Theorem missing_key_stops_after_header :
  forall (env : Env F) (session : Session) (log : list event),
    key_input session = EmptyString ->
    (forall key, secrets session = Val (Some key) -> key = EmptyString) ->
    (forall e, secrets session = Exc e -> is_Exception e = true) ->
    exists new,
      whole env session log = (Exc StopScript, log ++ new) /\
      quiet new /\ slept new = 0 /\
      In (Ui "st" "image" ["banner.png"%string; BANNER_CAPTION]) new /\
      In (Ui "st" "title" ["🤖 AI Hedge Fund Manager"%string]) new /\
      In (Ui "st" "warning"
            ["⚠️ Please enter your API Key to unlock the agents."%string]) new /\
      In (Ui "st" "stop" []) new.
Proof.
  intros env session log Htyped Hsecret Hraise.
  destruct (page_header_run session) as (hdr & Hhdr & Qh & Sh & Hfile & Htitle & _).
  destruct (api_access_run session) as (racc & acc & Hacc & Qa & Sa & Hcase).
  destruct racc as [key|e].
  - exfalso. destruct Hcase as (Hkey & [(Hs & _) | (-> & _)]).
    + apply Hkey. now apply Hsecret.
    + now apply Hkey.
  - destruct Hcase as [(-> & _ & _ & _ & Hwarn & Hstop) | (Hs & He)].
    + exists (hdr ++ acc). unfold script.
      rewrite (bind_val _ _ _ _ _ (Hhdr _)), (bind_exc _ _ _ _ _ (Hacc _)), <- app_assoc.
      split; [reflexivity|]. split; [now apply quiet_app|].
      split; [rewrite slept_app; lia|].
      repeat split; apply in_or_app; auto.
    + rewrite (Hraise _ Hs) in He. discriminate.
Qed.

(** X14.  When building the client raises an [Exception] for the key that
    was found, the script shows the connection error with the text of the
    exception and stops: no market data or model call is made, also when
    the analysis was asked for. *)
Theorem client_failure_stops_script :
  forall (env : Env F) (session : Session) (log0 log : list event) (key : string) (e : exn),
    fst (api_access session log0) = Val key ->
    new_client session key = Exc e ->
    is_Exception e = true ->
    exists before,
      whole env session log
      = (Exc StopScript,
         log ++ before ++
         [Ui "st" "error" [("❌ Connection Error: " ++ message session e)%string];
          Ui "st" "stop" []]) /\
      quiet before.
Proof.
  intros env session log0 log key e Hkey Hclient He.
  destruct (page_header_run session) as (hdr & Hhdr & Qh & _).
  destruct (api_access_any_log session log0 key Hkey) as (acc & Hacc & Qa & _).
  destruct (alerts_run session) as (al & Hal & Ql & _).
  destruct (init_client_run session key) as (rcl & cl & Hcl & _ & _ & Hcase).
  rewrite Hclient, He in Hcase. destruct Hcase as (-> & ->).
  exists (hdr ++ acc ++ al). unfold script.
  rewrite (bind_val _ _ _ _ _ (Hhdr _)), (bind_val _ _ _ _ _ (Hacc _)),
    (bind_val _ _ _ _ _ (Hal _)), (bind_exc _ _ _ _ _ (Hcl _)), <- !app_assoc.
  split; [reflexivity | auto using quiet_app].
Qed.

(** X15.  The script calls the market data provider or the model only if
    the analysis was asked for, a key that is not empty was found in the
    secrets or typed, and the client was built with that key. *)
Theorem provider_calls_need_key_client_and_button :
  forall (env : Env F) (session : Session) (log new : list event),
    snd (whole env session log) = log ++ new ->
    ~ quiet new ->
    start_btn session = true /\
    exists key,
      key <> EmptyString /\
      (secrets session = Val (Some key) \/ key = key_input session) /\
      new_client session key = Val tt.
Proof.
  intros env session log new Hlog Hloud.
  destruct (api_access_run session) as (racc & acc & Hacc & _).
  assert (Hearly : (forall key log0, fst (api_access session log0) = Val key ->
                                     new_client session key <> Val tt) -> False).
  { intros Hno.
    destruct (script_stops_early env session log Hno) as (e & new' & Hrun & Hquiet).
    rewrite Hrun in Hlog. cbn [snd] in Hlog. apply app_inv_head in Hlog. now subst. }
  destruct racc as [key|e].
  - destruct (new_client session key) as [[]|e] eqn:Hclient.
    + assert (Hkey : fst (api_access session []) = Val key) by now rewrite Hacc.
      destruct (api_access_any_log session [] key Hkey) as (_ & _ & _ & Hne & Hfrom).
      destruct (script_reaches_analysis env session [] log key Hkey Hclient)
        as (pre & Hquiet & Hrun).
      destruct (start_btn session).
      * split; [reflexivity|]. exists key. auto.
      * rewrite Hrun in Hlog. cbn [snd] in Hlog. apply app_inv_head in Hlog.
        now subst.
    + exfalso. apply Hearly. intros key' log0 Hkey'.
      rewrite Hacc in Hkey'. injection Hkey' as <-. congruence.
  - exfalso. apply Hearly. intros key' log0 Hkey'.
    rewrite Hacc in Hkey'. discriminate.
Qed.

(** X16.  When a key is found and the client is built with it, the script
    does exactly this: events of the header, the sidebar and the inputs,
    none of them a market data or model call, and then, if the analysis was
    asked for, the analysis of the typed ticker, whose outcome is the
    outcome of the script; the model calls of the analysis are counted from
    where the log stood.  If the analysis was not asked for, the script ends
    there with no report. *)
Theorem script_is_header_sidebar_then_analysis :
  forall (env : Env F) (session : Session) (log0 log : list event) (key : string),
    fst (api_access session log0) = Val key ->
    new_client session key = Val tt ->
    exists pre,
      quiet pre /\ gen_calls (log ++ pre) = gen_calls log /\
      whole env session log
      = if start_btn session
        then lift_report (analysis env (ticker_input session) (log ++ pre))
        else (Val None, log ++ pre).
Proof.
  intros env session log0 log key Hkey Hclient.
  destruct (script_reaches_analysis env session log0 log key Hkey Hclient)
    as (pre & Hquiet & Hrun).
  exists pre. split; [exact Hquiet|]. split; [|exact Hrun].
  rewrite gen_calls_app, (quiet_gen_calls _ Hquiet). lia.
Qed.

End ScriptFacts.

(** ** The sample sessions *)

Lemma api_access_returns_usable_key_witness :
  exists new,
    snd (api_access SampleRun.with_typed_key []) = [] ++ new /\
    "typed-key"%string <> EmptyString /\
    ((secrets SampleRun.with_typed_key = Val (Some "typed-key"%string) /\
      In (Ui "st" "success" ["✅ Connected"%string]) new /\
      forall args, ~ In (Ui "st" "text_input" args) new)
     \/
     ("typed-key"%string = key_input SampleRun.with_typed_key /\
      secrets SampleRun.with_typed_key <> Val (Some "typed-key"%string) /\
      (forall found, secrets SampleRun.with_typed_key = Val (Some found) ->
                     found = EmptyString) /\
      (forall e, secrets SampleRun.with_typed_key = Exc e -> is_Exception e = true) /\
      ~ In (Ui "st" "success" ["✅ Connected"%string]) new /\
      In (Ui "st" "text_input"
            ["Enter Gemini API Key"%string; "password"%string;
             "Get your free key at aistudio.google.com"%string]) new)).
Proof.
  apply (api_access_returns_usable_key SampleRun.with_typed_key []
           (snd (api_access SampleRun.with_typed_key [])) "typed-key").
  reflexivity.
Defined.

Lemma missing_key_stops_after_header_witness :
  exists new,
    SampleRun.run Sample.all_fail SampleRun.without_key = (Exc StopScript, [] ++ new) /\
    quiet new /\ slept new = 0 /\
    In (Ui "st" "image" ["banner.png"%string; BANNER_CAPTION]) new /\
    In (Ui "st" "title" ["🤖 AI Hedge Fund Manager"%string]) new /\
    In (Ui "st" "warning"
          ["⚠️ Please enter your API Key to unlock the agents."%string]) new /\
    In (Ui "st" "stop" []) new.
Proof.
  apply (missing_key_stops_after_header Nat.sub Nat.div Nat.mul 100 Sample.fmt
           Sample.fmt_signed Sample.all_fail SampleRun.without_key []).
  - reflexivity.
  - intros key H. discriminate.
  - intros e H. discriminate.
Defined.

Lemma client_failure_stops_script_witness :
  exists before,
    SampleRun.run Sample.all_fail SampleRun.with_bad_key
    = (Exc StopScript,
       [] ++ before ++
       [Ui "st" "error" ["❌ Connection Error: API key not valid"%string];
        Ui "st" "stop" []]) /\
    quiet before.
Proof.
  apply (client_failure_stops_script Nat.sub Nat.div Nat.mul 100 Sample.fmt
           Sample.fmt_signed Sample.all_fail SampleRun.with_bad_key [] []
           "secret-key" ApiError); reflexivity.
Defined.

Lemma provider_calls_need_key_client_and_button_witness :
  start_btn SampleRun.with_secret = true /\
  exists key,
    key <> EmptyString /\
    (secrets SampleRun.with_secret = Val (Some key) \/
     key = key_input SampleRun.with_secret) /\
    new_client SampleRun.with_secret key = Val tt.
Proof.
  apply (provider_calls_need_key_client_and_button Nat.sub Nat.div Nat.mul 100 Sample.fmt
           Sample.fmt_signed Sample.all_fail SampleRun.with_secret []
           (snd (SampleRun.run Sample.all_fail SampleRun.with_secret))).
  - reflexivity.
  - unfold quiet. vm_compute. discriminate.
Defined.

Lemma script_is_header_sidebar_then_analysis_witness :
  exists pre,
    quiet pre /\ gen_calls ([] ++ pre) = gen_calls [] /\
    SampleRun.run Sample.all_fail SampleRun.with_secret
    = if start_btn SampleRun.with_secret
      then lift_report
             (run_analysis Nat.sub Nat.div Nat.mul 100 Sample.fmt Sample.fmt_signed
                Sample.all_fail (ticker_input SampleRun.with_secret) ([] ++ pre))
      else (Val None, [] ++ pre).
Proof.
  apply (script_is_header_sidebar_then_analysis Nat.sub Nat.div Nat.mul 100 Sample.fmt
           Sample.fmt_signed Sample.all_fail SampleRun.with_secret [] [] "secret-key");
    reflexivity.
Defined.

(** The sample sessions, evaluated. *)
Example secret_key_session_ends_with_buy :
  match SampleRun.run Sample.all_fail SampleRun.with_secret with
  | (Val (Some rep), log) => signal rep = BUY /\ gen_calls log = 6 /\ slept log = 12
  | _ => False
  end.
Proof. vm_compute. repeat split. Qed.

Example typed_key_session_subscribes :
  match SampleRun.run Sample.all_fail SampleRun.with_typed_key with
  | (Val (Some rep), log) =>
      In (Ui "st" "toast" ["✅ Subscribed! Alerts sent to me@example.org"%string]) log /\
      slept log = 13
  | _ => False
  end.
Proof. vm_compute. split; [tauto | reflexivity]. Qed.

Lemma results_are_the_three_answers_witness :
  exists news log' before,
    Sample.run Sample.no_news "NVDA"
    = (Val (mkReport "$130.00 (+2.00%)" news (Some "BUY: strong momentum"%string)
              (Some "BUY: strong momentum"%string) (Some "BUY: strong momentum"%string)
              BUY), log') /\
    log' =
    before ++
    [Ui "container" "success"
       [("### 🟢 BUY SIGNAL" ++ Py.nl ++ Py.nl ++ "BUY: strong momentum")%string];
     Ui "st" "balloons" []].
Proof.
  destruct (results_are_the_three_answers Nat.sub Nat.div Nat.mul 100 Sample.fmt
              Sample.fmt_signed Sample.no_news "NVDA" "$130.00 (+2.00%)" [] [] eq_refl)
    as (news & a & b & c & log' & _ & Ha & Hb & Hc & Hend);
    [intros n model contents H; discriminate H|].
  injection Ha as <-. injection Hb as <-. injection Hc as <-.
  destruct Hend as (Hrun & before & Hlog).
  exists news, log', before. split; [exact Hrun | exact Hlog].
Defined.
